(** * Time Series Dashboard: the CSV pipeline of [js/dashboard.js]

    A shallow embedding of [parseCSV], [detectTimeFormat], [processTimeValue],
    [parseDateTimeString] and the date formatting helpers of the class
    [TimeSeriesDashboard], together with the part of the JavaScript runtime
    they call ([String.prototype.trim], [split], [parseInt], [parseFloat],
    [Date]).

    Conventions.
    - A JavaScript string is a [string]; every [ascii] stands for one code
      unit below 256, so the white space of [trim] is TAB, LF, VT, FF, CR,
      SP and NBSP.
    - Code that may throw returns a [completion].
    - [console.warn] calls are collected in a list of [warning]s.
    - The object [sampleData] is a [gmap string _]: the code reads and
      writes it at the sample names of the header only, where the two
      agree; the properties a JavaScript object inherits from its
      prototype are not modelled. *)

From Stdlib Require Import ZArith Ascii String List Lia Bool.
From stdpp Require Import gmap strings list.

Local Open Scope Z_scope.

(** ** Completions *)

Inductive exception : Type :=
| Error (message : string)
| TypeError (message : string)
| ReferenceError (message : string).

Inductive completion (A : Type) : Type :=
| Normal (a : A)
| Throw (e : exception).

Arguments Normal {A} a.
Arguments Throw {A} e.

Definition bind {A B : Type} (c : completion A) (k : A -> completion B) : completion B :=
  match c with
  | Normal a => k a
  | Throw e => Throw e
  end.

Notation "'do' x <- c ; k" := (bind c (fun x => k))
  (at level 10, x name, c at level 100, k at level 200).


(** ** Strings of the runtime *)

Module JS.

Definition code (c : ascii) : Z := Z.of_nat (nat_of_ascii c).

(** WhiteSpace and LineTerminator code units below 256. *)
Definition isWhiteSpace (c : ascii) : bool :=
  let n := code c in
  ((9 <=? n) && (n <=? 13)) || (n =? 32) || (n =? 160).

Definition isDigit (c : ascii) : bool :=
  let n := code c in (48 <=? n) && (n <=? 57).

Definition isEmpty (s : string) : bool :=
  match s with
  | EmptyString => true
  | String _ _ => false
  end.

Fixpoint trimStart (s : string) : string :=
  match s with
  | EmptyString => EmptyString
  | String c r => if isWhiteSpace c then trimStart r else s
  end.

Fixpoint trimEnd (s : string) : string :=
  match s with
  | EmptyString => EmptyString
  | String c r =>
      let r' := trimEnd r in
      if isWhiteSpace c && isEmpty r' then EmptyString else String c r'
  end.

(** [s.trim()] *)
Definition trim (s : string) : string := trimEnd (trimStart s).

(** [s.split(sep)] for a one-character separator: never the empty array. *)
Fixpoint split (sep : ascii) (s : string) : list string :=
  match s with
  | EmptyString => [EmptyString]
  | String c r =>
      if Ascii.eqb c sep then EmptyString :: split sep r
      else match split sep r with
           | h :: t => String c h :: t
           | [] => [String c EmptyString]
           end
  end.

(** [s.substr(start, len)] *)
Definition substr (start len : nat) (s : string) : string :=
  String.substring start len s.

Fixpoint repeatChar (c : ascii) (n : nat) : string :=
  match n with
  | O => EmptyString
  | S k => String c (repeatChar c k)
  end.

(** [s.padStart(width, '0')] *)
Definition padStart (width : nat) (c : ascii) (s : string) : string :=
  repeatChar c (width - String.length s) +:+ s.

Fixpoint allDigits (s : string) : bool :=
  match s with
  | EmptyString => true
  | String c r => isDigit c && allDigits r
  end.

(** ** Numbers

    [number] holds the values of the time axis: the results of [parseInt]
    and of the [Date] getters are integers or [NaN]. Integers are exact;
    the rounding of integers beyond 2^53 to binary64 is not modelled. *)

Inductive number : Type :=
| NaN
| Num (z : Z).

Definition isNaN (x : number) : bool :=
  match x with
  | NaN => true
  | Num _ => false
  end.

Definition mul (x y : number) : number :=
  match x, y with
  | Num a, Num b => Num (a * b)
  | _, _ => NaN
  end.

Definition digitValue (radix : Z) (c : ascii) : option Z :=
  let n := code c in
  let v := if (48 <=? n) && (n <=? 57) then Some (n - 48)
           else if (97 <=? n) && (n <=? 122) then Some (n - 87)
           else if (65 <=? n) && (n <=? 90) then Some (n - 55)
           else None in
  match v with
  | Some d => if d <? radix then Some d else None
  | None => None
  end.

(** The longest prefix of digits of the radix; [None] when it is empty. *)
Fixpoint parseDigits (radix : Z) (s : string) (acc : option Z) : option Z :=
  match s with
  | EmptyString => acc
  | String c r =>
      match digitValue radix c with
      | Some d =>
          parseDigits radix r
            (Some (radix * (match acc with Some a => a | None => 0 end) + d))
      | None => acc
      end
  end.

(** [parseInt(s)] with no radix argument. *)
Definition parseInt (s : string) : number :=
  let s1 := trimStart s in
  let '(neg, s2) :=
    match s1 with
    | String "-" r => (true, r)
    | String "+" r => (false, r)
    | _ => (false, s1)
    end in
  let '(radix, s3) :=
    match s2 with
    | String "0" (String "x" r) => (16, r)
    | String "0" (String "X" r) => (16, r)
    | _ => (10, s2)
    end in
  match parseDigits radix s3 None with
  | None => NaN
  | Some n => Num (if neg then - n else n)
  end.

Fixpoint digitsOfPos (fuel : nat) (n : Z) (acc : string) : string :=
  match fuel with
  | O => acc
  | S k =>
      let acc' := String (ascii_of_nat (Z.to_nat (48 + n mod 10))) acc in
      if n <? 10 then acc' else digitsOfPos k (n / 10) acc'
  end.

(** [x.toString()] of an integer or [NaN]. *)
Definition toString (x : number) : string :=
  match x with
  | NaN => "NaN"
  | Num z =>
      let d := digitsOfPos (S (Z.to_nat (Z.log2 (Z.abs z)))) (Z.abs z) EmptyString in
      if z <? 0 then String "-" d else d
  end.

(** [float] holds what [parseFloat] reads: the decimal literal
    [(-1)^negative * mantissa * 10^exponent], an infinity, or [NaN]. Its
    rounding to binary64 is not modelled. *)

Inductive float : Type :=
| FNaN
| FInfinity (negative : bool)
| FDecimal (negative : bool) (mantissa : Z) (exponent : Z).

Definition isNaNf (x : float) : bool :=
  match x with
  | FNaN => true
  | _ => false
  end.


(** Reads decimal digits: the accumulated value, how many were read, the rest. *)
Fixpoint readDigits (s : string) (acc : Z) (count : Z) : Z * Z * string :=
  match s with
  | EmptyString => (acc, count, s)
  | String c r =>
      if isDigit c then readDigits r (10 * acc + (code c - 48)) (count + 1)
      else (acc, count, s)
  end.

Definition readExponent (s : string) : Z :=
  match s with
  | String c r =>
      if Ascii.eqb c "e" || Ascii.eqb c "E" then
        let '(neg, r1) :=
          match r with
          | String "-" r' => (true, r')
          | String "+" r' => (false, r')
          | _ => (false, r)
          end in
        let '(e, n, _) := readDigits r1 0 0 in
        if n =? 0 then 0 else if neg then - e else e
      else 0
  | EmptyString => 0
  end.

(** [parseFloat(s)]: the longest prefix of the trimmed string that is a
    StrDecimalLiteral, [NaN] when there is none. *)
Definition parseFloat (s : string) : float :=
  let s1 := trimStart s in
  let '(neg, s2) :=
    match s1 with
    | String "-" r => (true, r)
    | String "+" r => (false, r)
    | _ => (false, s1)
    end in
  if String.prefix "Infinity" s2 then FInfinity neg
  else
    let '(ip, ni, r1) := readDigits s2 0 0 in
    let '(m, nf, r2) :=
      match r1 with
      | String "." r => readDigits r ip 0
      | _ => (ip, 0, r1)
      end in
    if ni + nf =? 0 then FNaN
    else FDecimal neg m (readExponent r2 - nf).

End JS.

(** ** [detectTimeFormat] *)

(** [/^[01]\d*$/.test(s)] *)
Definition re_integer (s : string) : bool :=
  match s with
  | String c r => (Ascii.eqb c "0" || Ascii.eqb c "1") && JS.allDigits r
  | EmptyString => false
  end.

(** [/^\d{14}$/.test(s)] *)
Definition re_datetime (s : string) : bool :=
  JS.allDigits s && Nat.eqb (String.length s) 14.

(** [/^\d{13,}$/.test(s)] *)
Definition re_millis (s : string) : bool :=
  JS.allDigits s && Nat.leb 13 (String.length s).

(** [/^\d{10,12}$/.test(s)] *)
Definition re_seconds (s : string) : bool :=
  JS.allDigits s && Nat.leb 10 (String.length s) && Nat.leb (String.length s) 12.

Definition detectTimeFormat (timeValue : string) : completion string :=
  let trimmedValue := JS.trim timeValue in
  if re_integer trimmedValue && Nat.leb (String.length trimmedValue) 10 then
    Normal "integer"
  else if re_datetime trimmedValue then
    Normal "datetime_string"
  else if re_millis trimmedValue then
    Normal "epoch_milliseconds"
  else if re_seconds trimmedValue then
    Normal "epoch_seconds"
  else if negb (JS.isNaNf (JS.parseFloat trimmedValue)) then
    Normal "integer"
  else
    Throw (Error ("Unrecognized time format: " +:+ timeValue)).

(** ** [Date]

    Time values and the day, month and year arithmetic of ECMA-262
    (Day, DayFromYear, YearFromTime, MonthFromTime, MakeDay, MakeTime,
    MakeDate, TimeClip). The local time zone is a parameter: [LocalTZA t
    isUTC] is the offset of local time from UTC in milliseconds. *)

Module Date.
Import JS.

Record TimeZone : Type := { LocalTZA : Z -> bool -> Z }.

(** A zone with a constant offset from UTC. *)
Definition fixedZone (offset : Z) : TimeZone := {| LocalTZA := fun _ _ => offset |}.

Definition LocalTime (tz : TimeZone) (t : Z) : Z := t + LocalTZA tz t true.
Definition UTC (tz : TimeZone) (t : Z) : Z := t - LocalTZA tz t false.

Definition msPerDay : Z := 86400000.
Definition msPerHour : Z := 3600000.
Definition msPerMinute : Z := 60000.
Definition msPerSecond : Z := 1000.

Definition Day (t : Z) : Z := t / msPerDay.
Definition TimeWithinDay (t : Z) : Z := t mod msPerDay.

Definition isLeapYear (y : Z) : bool :=
  if negb (y mod 4 =? 0) then false
  else if negb (y mod 100 =? 0) then true
  else if negb (y mod 400 =? 0) then false
  else true.

Definition DaysInYear (y : Z) : Z := if isLeapYear y then 366 else 365.

Definition DayFromYear (y : Z) : Z :=
  365 * (y - 1970) + (y - 1969) / 4 - (y - 1901) / 100 + (y - 1601) / 400.

(** The largest year [y <= start] with [DayFromYear y <= d], searched downwards. *)
Fixpoint yearSearch (fuel : nat) (d : Z) (y : Z) : Z :=
  match fuel with
  | O => y
  | S k => if DayFromYear y <=? d then y else yearSearch k d (y - 1)
  end.

(** YearFromTime, on the day number: a year has 365 or 366 days, which
    bounds the year on both sides of 1970. *)
Definition YearFromDay (d : Z) : Z :=
  let hi := 1971 + Z.max (d / 365) (d / 366) in
  let lo := 1969 + Z.min (d / 365) (d / 366) in
  yearSearch (Z.to_nat (hi - lo)) d hi.

Definition YearFromTime (t : Z) : Z := YearFromDay (Day t).

Definition DayWithinYear (t : Z) : Z := Day t - DayFromYear (YearFromTime t).

Definition InLeapYear (t : Z) : Z := if isLeapYear (YearFromTime t) then 1 else 0.

(** Months are numbered from 0 (January) to 11 (December). *)
Definition MonthFromTime (t : Z) : Z :=
  let d := DayWithinYear t in
  let l := InLeapYear t in
  if d <? 31 then 0
  else if d <? 59 + l then 1
  else if d <? 90 + l then 2
  else if d <? 120 + l then 3
  else if d <? 151 + l then 4
  else if d <? 181 + l then 5
  else if d <? 212 + l then 6
  else if d <? 243 + l then 7
  else if d <? 273 + l then 8
  else if d <? 304 + l then 9
  else if d <? 334 + l then 10
  else 11.

(** The number of the first day of month [m] within a year. *)
Definition monthStart (m : Z) (l : Z) : Z :=
  if m =? 0 then 0
  else if m =? 1 then 31
  else if m =? 2 then 59 + l
  else if m =? 3 then 90 + l
  else if m =? 4 then 120 + l
  else if m =? 5 then 151 + l
  else if m =? 6 then 181 + l
  else if m =? 7 then 212 + l
  else if m =? 8 then 243 + l
  else if m =? 9 then 273 + l
  else if m =? 10 then 304 + l
  else 334 + l.

Definition DateFromTime (t : Z) : Z :=
  DayWithinYear t - monthStart (MonthFromTime t) (InLeapYear t) + 1.

Definition HourFromTime (t : Z) : Z := (t / msPerHour) mod 24.
Definition MinFromTime (t : Z) : Z := (t / msPerMinute) mod 60.
Definition SecFromTime (t : Z) : Z := (t / msPerSecond) mod 60.
Definition msFromTime (t : Z) : Z := t mod msPerSecond.

Definition MakeTime (hour min sec ms : Z) : Z :=
  hour * msPerHour + min * msPerMinute + sec * msPerSecond + ms.

(** The month argument counts from 0; months outside 0..11 carry into the year. *)
Definition MakeDay (year month date : Z) : Z :=
  let ym := year + month / 12 in
  let mn := month mod 12 in
  DayFromYear ym + monthStart mn (if isLeapYear ym then 1 else 0) + date - 1.

Definition MakeDate (day time : Z) : Z := day * msPerDay + time.

Definition TimeClip (t : Z) : number :=
  if Z.abs t >? 8640000000000000 then NaN else Num t.

(** A Date object: its time value. *)
Record Date : Type := { DateValue : number }.

(** [new Date(value)] for a number. *)
Definition ofValue (value : number) : Date :=
  match value with
  | NaN => {| DateValue := NaN |}
  | Num t => {| DateValue := TimeClip t |}
  end.

(** [new Date(year, month, day, hours, minutes, seconds)]: local time,
    [month] counted from 0, years 0..99 mapped to 1900..1999. *)
Definition ofComponents (tz : TimeZone) (year month day hours minutes seconds : number) : Date :=
  match year, month, day, hours, minutes, seconds with
  | Num y, Num m, Num dt, Num h, Num mi, Num s =>
      let yr := if (0 <=? y) && (y <=? 99) then 1900 + y else y in
      let finalDate := MakeDate (MakeDay yr m dt) (MakeTime h mi s 0) in
      {| DateValue := TimeClip (UTC tz finalDate) |}
  | _, _, _, _, _, _ => {| DateValue := NaN |}
  end.

Definition localField (tz : TimeZone) (f : Z -> Z) (d : Date) : number :=
  match DateValue d with
  | NaN => NaN
  | Num t => Num (f (LocalTime tz t))
  end.

Definition getTime (d : Date) : number := DateValue d.
Definition getFullYear (tz : TimeZone) : Date -> number := localField tz YearFromTime.
Definition getMonth (tz : TimeZone) : Date -> number := localField tz MonthFromTime.
Definition getDate (tz : TimeZone) : Date -> number := localField tz DateFromTime.
Definition getHours (tz : TimeZone) : Date -> number := localField tz HourFromTime.
Definition getMinutes (tz : TimeZone) : Date -> number := localField tz MinFromTime.
Definition getSeconds (tz : TimeZone) : Date -> number := localField tz SecFromTime.
Definition getMilliseconds (tz : TimeZone) : Date -> number := localField tz msFromTime.

(** The number-valued methods of [Date.prototype] that take no argument,
    by property name. *)
Definition prototype (tz : TimeZone) : list (string * (Date -> number)) :=
  [ ("getTime", getTime); ("valueOf", getTime);
    ("getFullYear", getFullYear tz); ("getMonth", getMonth tz);
    ("getDate", getDate tz); ("getHours", getHours tz);
    ("getMinutes", getMinutes tz); ("getSeconds", getSeconds tz);
    ("getMilliseconds", getMilliseconds tz);
    ("getDay", localField tz (fun t => (Day t + 4) mod 7));
    ("getTimezoneOffset", fun d =>
       match DateValue d with
       | NaN => NaN
       | Num t => Num ((t - LocalTime tz t) / msPerMinute)
       end);
    ("getUTCFullYear", localField (fixedZone 0) YearFromTime);
    ("getUTCMonth", localField (fixedZone 0) MonthFromTime);
    ("getUTCDate", localField (fixedZone 0) DateFromTime);
    ("getUTCHours", localField (fixedZone 0) HourFromTime);
    ("getUTCMinutes", localField (fixedZone 0) MinFromTime);
    ("getUTCSeconds", localField (fixedZone 0) SecFromTime);
    ("getUTCMilliseconds", localField (fixedZone 0) msFromTime);
    ("getUTCDay", localField (fixedZone 0) (fun t => (Day t + 4) mod 7)) ].

Fixpoint assoc {A : Type} (name : string) (l : list (string * A)) : option A :=
  match l with
  | [] => None
  | (k, v) :: r => if String.eqb k name then Some v else assoc name r
  end.

(** [d.name()]: a property that is not a method of the object is
    [undefined], and calling it throws a TypeError. *)
Definition invoke (tz : TimeZone) (d : Date) (name : string) : completion number :=
  match assoc name (prototype tz) with
  | Some f => Normal (f d)
  | None => Throw (TypeError (name +:+ " is not a function"))
  end.

End Date.

(** ** The dashboard *)

Import JS.

(** The value of the [display] property: [undefined] when the formatter
    returns nothing. *)
Inductive value : Type :=
| Undefined
| Str (s : string).

(** The object returned by [processTimeValue]; [date] is absent for the
    integer format. *)
Record TimePoint : Type := {
  numeric : number;
  date : option Date.Date;
  display : value;
  raw : string
}.

(** The [console.warn] calls, with the values interpolated in the message. *)
Inductive warning : Type :=
| RowArity (row : nat) (actual expected : nat)
| InvalidTime (row : nat) (rawTimeValue : string)
| InvalidSample (sampleName : string) (row : nat) (cell : string)
| ProcessingError (rawValue : string) (e : exception).

Section Dashboard.

Variable tz : Date.TimeZone.

Definition pad2 (x : number) : string := padStart 2 "0" (toString x).
Definition pad3 (x : number) : string := padStart 3 "0" (toString x).

Definition formatDateTime (date : Date.Date) (withMillis : bool) : string :=
  let year := toString (Date.getFullYear tz date) in
  let month := pad2 (Date.getMonth tz date) in
  let day := pad2 (Date.getDate tz date) in
  let hours := pad2 (Date.getHours tz date) in
  let minutes := pad2 (Date.getMinutes tz date) in
  let seconds := pad2 (Date.getSeconds tz date) in
  let dateTime := year +:+ "-" +:+ month +:+ "-" +:+ day +:+ " " +:+ hours +:+ ":" +:+ minutes +:+ ":" +:+ seconds in
  if withMillis then dateTime +:+ "." +:+ pad3 (Date.getMilliseconds tz date)
  else dateTime.

(** The functions an unqualified call can reach from a method body: the
    function declarations of the script. [dashboard.js] declares the class
    and [let dashboard], and no function: the methods of the class are
    properties of [this], not bindings. *)
Definition scriptFunctions : list (string * (Date.Date -> bool -> string)) := [].

(** The body is the statement [formatDateTime(date, true);] : an
    unqualified call, whose result is dropped. *)
Definition formatDateTimeWithMs (date : Date.Date) : completion value :=
  match Date.assoc "formatDateTime" scriptFunctions with
  | Some f => let _ := f date true in Normal Undefined
  | None => Throw (ReferenceError "formatDateTime is not defined")
  end.

Definition parseDateTimeString (dateTimeStr : string) : completion Date.Date :=
  if negb (Nat.eqb (String.length dateTimeStr) 14) then
    Throw (Error "DateTime string must be 14 characters (YYYYMMDDHHMMSS)")
  else
    let year := parseInt (substr 0 4 dateTimeStr) in
    let month := parseInt (substr 4 2 dateTimeStr) in
    let day := parseInt (substr 6 2 dateTimeStr) in
    let hour := parseInt (substr 8 2 dateTimeStr) in
    let minute := parseInt (substr 10 2 dateTimeStr) in
    let second := parseInt (substr 12 2 dateTimeStr) in
    Normal (Date.ofComponents tz year month day hour minute second).

(** The [switch] of [processTimeValue], inside the [try]. *)
Definition processTimeValue_try (rawValue trimmedValue format : string)
  : completion (option TimePoint) :=
  if String.eqb format "integer" then
    let intValue := parseInt trimmedValue in
    Normal (Some {| numeric := intValue; date := None;
                    display := Str (toString intValue); raw := rawValue |})
  else if String.eqb format "epoch_seconds" then
    let epochSeconds := parseInt trimmedValue in
    let dateFromSeconds := Date.ofValue (mul epochSeconds (Num 1000)) in
    do n <- Date.invoke tz dateFromSeconds "time";
    Normal (Some {| numeric := n; date := Some dateFromSeconds;
                    display := Str (formatDateTime dateFromSeconds false);
                    raw := rawValue |})
  else if String.eqb format "epoch_milliseconds" then
    let epochMs := parseInt trimmedValue in
    let dateFromMs := Date.ofValue epochMs in
    do n <- Date.invoke tz dateFromMs "getTime";
    do disp <- formatDateTimeWithMs dateFromMs;
    Normal (Some {| numeric := n; date := Some dateFromMs;
                    display := disp; raw := rawValue |})
  else if String.eqb format "datetime_string" then
    do dateFromString <- parseDateTimeString trimmedValue;
    do n <- Date.invoke tz dateFromString "getTime";
    Normal (Some {| numeric := n; date := Some dateFromString;
                    display := Str (formatDateTime dateFromString false);
                    raw := rawValue |})
  else Normal None.

(** [processTimeValue]: [None] is [null]; the [catch] warns and returns [null]. *)
Definition processTimeValue (rawValue format : string) : option TimePoint * list warning :=
  let trimmedValue := trim rawValue in
  match processTimeValue_try rawValue trimmedValue format with
  | Normal r => (r, [])
  | Throw e => (None, [ProcessingError rawValue e])
  end.

(** The state of the row loop of [parseCSV]. *)
Record rows : Type := {
  timePoints : list number;
  processedTimePoints : list TimePoint;
  sampleData : gmap string (list (option float));
  warnings : list warning
}.

(** [sampleData[sampleName].push(v)]: pushing on [undefined] throws. *)
Definition push (sampleName : string) (v : option float)
    (data : gmap string (list (option float)))
  : completion (gmap string (list (option float))) :=
  match data !! sampleName with
  | Some series => Normal (<[sampleName := series ++ [v]]> data)
  | None => Throw (TypeError "Cannot read properties of undefined (reading 'push')")
  end.

(** The inner loop [for (let j = 1; j < values.length; j++)], on the
    cells [values[j], values[j+1], ...]. [sampleNames[j - 1]] out of range
    is [undefined], the property key "undefined". *)
Fixpoint parseSamples (sampleNames : list string) (i : nat) (j : nat) (cells : list string)
    (data : gmap string (list (option float))) (warns : list warning)
  : completion (gmap string (list (option float)) * list warning) :=
  match cells with
  | [] => Normal (data, warns)
  | cell :: rest =>
      let sampleName := nth (j - 1) sampleNames "undefined" in
      let v := parseFloat cell in
      if isNaNf v then
        do data' <- push sampleName None data;
        parseSamples sampleNames i (S j) rest data'
          (warns ++ [InvalidSample sampleName (i + 1) cell])
      else
        do data' <- push sampleName (Some v) data;
        parseSamples sampleNames i (S j) rest data' warns
  end.

Definition splitRow (line : string) : list string :=
  map trim (split "," line).

(** One iteration of [for (let i = 1; i < lines.length; i++)]. *)
Definition processRow (header sampleNames : list string) (timeFormat : string)
    (i : nat) (line : string) (st : rows) : completion rows :=
  let values := splitRow line in
  if negb (Nat.eqb (length values) (length header)) then
    Normal {| timePoints := timePoints st;
              processedTimePoints := processedTimePoints st;
              sampleData := sampleData st;
              warnings := warnings st ++ [RowArity (i + 1) (length values) (length header)] |}
  else
    let rawTimeValue := nth 0 values "undefined" in
    let '(processedTime, w) := processTimeValue rawTimeValue timeFormat in
    match processedTime with
    | None =>
        Normal {| timePoints := timePoints st;
                  processedTimePoints := processedTimePoints st;
                  sampleData := sampleData st;
                  warnings := warnings st ++ w ++ [InvalidTime (i + 1) rawTimeValue] |}
    | Some p =>
        do r <- parseSamples sampleNames i 1 (tail values) (sampleData st) (warnings st ++ w);
        Normal {| timePoints := timePoints st ++ [numeric p];
                  processedTimePoints := processedTimePoints st ++ [p];
                  sampleData := fst r;
                  warnings := snd r |}
    end.

Fixpoint processRows (header sampleNames : list string) (timeFormat : string)
    (i : nat) (lines : list string) (st : rows) : completion rows :=
  match lines with
  | [] => Normal st
  | line :: rest =>
      do st' <- processRow header sampleNames timeFormat i line st;
      processRows header sampleNames timeFormat (S i) rest st'
  end.

(** The object returned by [parseCSV]. *)
Record Dataset : Type := {
  timeColumnName : string;
  samples : list string;
  ds_timePoints : list number;
  ds_processedTimePoints : list TimePoint;
  ds_sampleData : gmap string (list (option float));
  timeFormat : string
}.

(** [sampleNames.forEach(name => { sampleData[name] = []; })] *)
Definition initSampleData (sampleNames : list string) : gmap string (list (option float)) :=
  fold_left (fun data name => <[name := []]> data) sampleNames ∅.

Definition parseCSV (csvText : string) : completion (Dataset * list warning) :=
  let lines := split "010" (trim csvText) in
  if Nat.ltb (length lines) 2 then
    Throw (Error "CSV file must have at least 2 rows (header + data)")
  else
    let header := splitRow (nth 0 lines "") in
    let timeColumnName := nth 0 header "" in
    let sampleNames := tail header in
    if Nat.eqb (length sampleNames) 0 then
      Throw (Error "No sample columns found in CSV")
    else
      let firstDataRow := splitRow (nth 1 lines "") in
      do timeFormat <- detectTimeFormat (nth 0 firstDataRow "");
      do st <- processRows header sampleNames timeFormat 1 (tail lines)
                 {| timePoints := []; processedTimePoints := [];
                    sampleData := initSampleData sampleNames; warnings := [] |};
      if Nat.eqb (length (timePoints st)) 0 then
        Throw (Error "No valid data rows found")
      else
        Normal ({| timeColumnName := timeColumnName;
                   samples := sampleNames;
                   ds_timePoints := timePoints st;
                   ds_processedTimePoints := processedTimePoints st;
                   ds_sampleData := sampleData st;
                   timeFormat := timeFormat |}, warnings st).

End Dashboard.

(** ** Derived notions used in the statements *)


Definition csvLines (csvText : string) : list string := split "010" (trim csvText).
Definition csvHeader (csvText : string) : list string := splitRow (nth 0 (csvLines csvText) "").
Definition csvSampleNames (csvText : string) : list string := tail (csvHeader csvText).
Definition csvFirstToken (csvText : string) : string :=
  nth 0 (splitRow (nth 1 (csvLines csvText) "")) "".

(** What [parseFloat] and the [isNaN] test store for a cell. *)
Definition cellValue (cell : string) : option float :=
  let v := parseFloat cell in
  if isNaNf v then None else Some v.

(** A data line passes the two [continue] guards of the row loop: it has
    the arity of the header and its time value is not [null]. *)
Definition acceptRow (tz : Date.TimeZone) (header : list string) (format : string)
    (line : string) : option (TimePoint * list string) :=
  let values := splitRow line in
  if Nat.eqb (length values) (length header) then
    match fst (processTimeValue tz (nth 0 values "undefined") format) with
    | Some p => Some (p, tail values)
    | None => None
    end
  else None.

(** The accepted rows of a file, in order: time point and sample cells. *)
Definition acceptedRows (tz : Date.TimeZone) (format : string) (csvText : string)
  : list (TimePoint * list string) :=
  omap (acceptRow tz (csvHeader csvText) format) (tail (csvLines csvText)).

(** The slots one row pushes on the series called [name]. *)
Fixpoint slots (name : string) (sampleNames cells : list string) : list (option float) :=
  match sampleNames, cells with
  | n :: ns, c :: cs =>
      if String.eqb n name then cellValue c :: slots name ns cs
      else slots name ns cs
  | _, _ => []
  end.

Fixpoint occurrences (name : string) (sampleNames : list string) : nat :=
  match sampleNames with
  | [] => 0
  | n :: ns => if String.eqb n name then S (occurrences name ns) else occurrences name ns
  end.

Definition nl : string := String "010" EmptyString.

(** The offsets of a time zone stay within a day. *)
Definition boundedZone (tz : Date.TimeZone) : Prop :=
  forall t isUTC, Z.abs (Date.LocalTZA tz t isUTC) <= Date.msPerDay.

(** Every sample name has its array in [sampleData]. *)
Definition allInitialised (sampleNames : list string)
    (data : gmap string (list (option float))) : Prop :=
  forall name, name ∈ sampleNames -> is_Some (data !! name).

(** The slots the accepted rows push on the series called [name]. *)
Definition slotsOf (sampleNames : list string) (name : string)
    (accepted : list (TimePoint * list string)) : list (option float) :=
  flat_map (fun r => slots name sampleNames (snd r)) accepted.

(** The state before the first row, and the object built after the last. *)
Definition initialRows (sampleNames : list string) : rows :=
  {| timePoints := []; processedTimePoints := [];
     sampleData := initSampleData sampleNames; warnings := [] |}.

Definition datasetOf (csvText format : string) (st : rows) : Dataset :=
  {| timeColumnName := nth 0 (csvHeader csvText) "";
     samples := csvSampleNames csvText;
     ds_timePoints := timePoints st;
     ds_processedTimePoints := processedTimePoints st;
     ds_sampleData := sampleData st;
     timeFormat := format |}.

(** Example files. *)
Definition fileWithBadTime : string :=
  "t,a" +:+ nl +:+ "0,1" +:+ nl +:+ "abc,2".

Definition fileWithGaps : string :=
  "t,a,b" +:+ nl +:+ "0,1,2" +:+ nl +:+ "1,abc,4.5" +:+ nl +:+ "2,3" +:+ nl +:+ "3,,7".

Definition fileWithTwin : string :=
  "t,a,a" +:+ nl +:+ "0,1,2" +:+ nl +:+ "1,3,4".

(** ** Presentation: time labels, colours, the chart and its visibility

    The handlers below are modelled on the state they read and write:
    [parsedData], [chart] (the datasets given to the chart and the title
    of its x axis), [visibleSamples] and the message on display. The
    document, the drawing of the chart and the reading of the file are
    outside: a handler that can throw after a mutation returns the state
    it leaves together with the exception. Of the other fields of the
    class, [csvData] is never assigned, and [timeFormat] is read only in
    [parseCSV], right after it is written there: [parseCSV] passes it on
    as a value. *)

Definition formatShortDateTime (tz : Date.TimeZone) (date : Date.Date)
    (withMillis : bool) : string :=
  let hours := pad2 (Date.getHours tz date) in
  let minutes := pad2 (Date.getMinutes tz date) in
  let seconds := pad2 (Date.getSeconds tz date) in
  let time := hours +:+ ":" +:+ minutes +:+ ":" +:+ seconds in
  if withMillis then time +:+ "." +:+ pad3 (Date.getMilliseconds tz date)
  else time.

(** The array [colors] of [getColorForSample]; [alpha] is the text the
    template puts for the number: "1" by default, "0.1" for backgrounds. *)
Definition colors (alpha : string) : list string :=
  [ "rgba(102, 126, 234, " +:+ alpha +:+ ")";
    "rgba(255, 99, 132, " +:+ alpha +:+ ")";
    "rgba(54, 162, 235, " +:+ alpha +:+ ")";
    "rgba(255, 206, 86, " +:+ alpha +:+ ")";
    "rgba(75, 192, 192, " +:+ alpha +:+ ")";
    "rgba(153, 102, 255, " +:+ alpha +:+ ")";
    "rgba(255, 159, 64, " +:+ alpha +:+ ")";
    "rgba(199, 199, 199, " +:+ alpha +:+ ")";
    "rgba(83, 102, 255, " +:+ alpha +:+ ")";
    "rgba(255, 99, 255, " +:+ alpha +:+ ")" ].

Definition getColorForSample (index : nat) (alpha : string) : string :=
  nth (index mod length (colors alpha)) (colors alpha) "undefined".

(** [getXAxisTitle]: [this.parsedData?.timeFormat] is [undefined] without data. *)
Definition getXAxisTitle (parsedData : option Dataset) : string :=
  match parsedData with
  | None => "Time"
  | Some ds =>
      if String.eqb (timeFormat ds) "integer" then "Time (integer values)"
      else if String.eqb (timeFormat ds) "epoch_seconds"
              || String.eqb (timeFormat ds) "epoch_milliseconds"
              || String.eqb (timeFormat ds) "datetime_string"
      then "Time (HH:MM:SS)"
      else "Time"
  end.

Module Chart.

(** A point [{x, y}]: [y] is [None] for [undefined] (an index past the end
    of the series), [Some None] for [null]. *)
Record Point : Type := { x : number; y : option (option float) }.

(** A dataset of the chart; the constant drawing options are left out. *)
Record Series : Type := {
  label : string;
  data : list Point;
  borderColor : string;
  backgroundColor : string;
  hidden : bool
}.

Record t : Type := { datasets : list Series; xAxisTitle : string }.

Definition setHidden (h : bool) (s : Series) : Series :=
  {| label := label s; data := data s; borderColor := borderColor s;
     backgroundColor := backgroundColor s; hidden := h |}.

End Chart.

Record Dashboard : Type := {
  parsedData : option Dataset;
  chart : option Chart.t;
  visibleSamples : gset string;
  message : option (string * string)
}.

(** [new TimeSeriesDashboard()] *)
Definition newDashboard : Dashboard :=
  {| parsedData := None; chart := None; visibleSamples := ∅; message := None |}.

(** [showMessage(text, type)]: the message replaces the one on display. *)
Definition showMessage (text type : string) (st : Dashboard) : Dashboard :=
  {| parsedData := parsedData st; chart := chart st;
     visibleSamples := visibleSamples st; message := Some (text, type) |}.

Definition setVisible (visible : gset string) (st : Dashboard) : Dashboard :=
  {| parsedData := parsedData st; chart := chart st;
     visibleSamples := visible; message := message st |}.

Definition setChart (c : Chart.t) (st : Dashboard) : Dashboard :=
  {| parsedData := parsedData st; chart := Some c;
     visibleSamples := visibleSamples st; message := message st |}.

Definition setParsedData (ds : Dataset) (st : Dashboard) : Dashboard :=
  {| parsedData := Some ds; chart := chart st;
     visibleSamples := visibleSamples st; message := message st |}.

(** [this.visibleSamples.has(sampleName)]; the name is [None] when it is
    [undefined], which a set of strings does not hold. *)
Definition has (visible : gset string) (sampleName : option string) : bool :=
  match sampleName with
  | Some name => bool_decide (name ∈ visible)
  | None => false
  end.

(** [this.parsedData.timePoints.map((time, i) => ({x: time, y:
    this.parsedData.sampleData[sampleName][i]}))], from index [i] on. *)
Fixpoint chartPoints (ds : Dataset) (sampleName : string) (i : nat)
    (times : list number) : completion (list Chart.Point) :=
  match times with
  | [] => Normal []
  | time :: rest =>
      match ds_sampleData ds !! sampleName with
      | None => Throw (TypeError "Cannot read properties of undefined")
      | Some series =>
          do points <- chartPoints ds sampleName (S i) rest;
          Normal ({| Chart.x := time; Chart.y := series !! i |} :: points)
      end
  end.

(** [this.parsedData.samples.map((sampleName, index) => ...)], from [index] on. *)
Fixpoint chartDatasets (ds : Dataset) (visible : gset string) (index : nat)
    (sampleNames : list string) : completion (list Chart.Series) :=
  match sampleNames with
  | [] => Normal []
  | sampleName :: rest =>
      do points <- chartPoints ds sampleName 0 (ds_timePoints ds);
      do others <- chartDatasets ds visible (S index) rest;
      Normal ({| Chart.label := sampleName;
                 Chart.data := points;
                 Chart.borderColor := getColorForSample index "1";
                 Chart.backgroundColor := getColorForSample index "0.1";
                 Chart.hidden := negb (has visible (Some sampleName)) |} :: others)
  end.

Definition renderChart (st : Dashboard) : Dashboard * option exception :=
  match parsedData st with
  | None => (st, Some (TypeError "Cannot read properties of null (reading 'samples')"))
  | Some ds =>
      match chartDatasets ds (visibleSamples st) 0 (samples ds) with
      | Throw e => (st, Some e)
      | Normal datasets =>
          (setChart {| Chart.datasets := datasets;
                       Chart.xAxisTitle := getXAxisTitle (parsedData st) |} st, None)
      end
  end.

(** The [forEach] of [updateChart], from [index] on. *)
Fixpoint updateHidden (sampleNames : list string) (visible : gset string)
    (index : nat) (datasets : list Chart.Series) : list Chart.Series :=
  match datasets with
  | [] => []
  | dataset :: rest =>
      Chart.setHidden (negb (has visible (sampleNames !! index))) dataset
        :: updateHidden sampleNames visible (S index) rest
  end.

Definition updateChart (st : Dashboard) : Dashboard * option exception :=
  match chart st with
  | None => (st, None)
  | Some c =>
      match Chart.datasets c with
      | [] => (st, None)
      | _ :: _ =>
          match parsedData st with
          | None => (st, Some (TypeError "Cannot read properties of null (reading 'samples')"))
          | Some ds =>
              (setChart {| Chart.datasets :=
                             updateHidden (samples ds) (visibleSamples st) 0 (Chart.datasets c);
                           Chart.xAxisTitle := Chart.xAxisTitle c |} st, None)
          end
      end
  end.

Definition toggleSample (sampleName : string) (st : Dashboard) : Dashboard * option exception :=
  let visible :=
    if bool_decide (sampleName ∈ visibleSamples st)
    then visibleSamples st ∖ {[sampleName]}
    else visibleSamples st ∪ {[sampleName]} in
  updateChart (setVisible visible st).

(** [renderDashboard]: all samples visible, then the chart. *)
Definition renderDashboard (st : Dashboard) : Dashboard * option exception :=
  match parsedData st with
  | None => (st, Some (TypeError "Cannot read properties of null (reading 'samples')"))
  | Some ds => renderChart (setVisible (list_to_set (samples ds)) st)
  end.

Definition errorMessage (e : exception) : string :=
  match e with
  | Error m => m
  | TypeError m => m
  | ReferenceError m => m
  end.

Definition showNat (n : nat) : string := toString (Num (Z.of_nat n)).

Definition loadFailed (e : exception) (st : Dashboard) : Dashboard :=
  showMessage ("Error loading file: " +:+ errorMessage e) "error" st.

(** [handleFileUpload], given what [readFileAsText] settles to. *)
Definition handleFileUpload (tz : Date.TimeZone) (file : completion string)
    (st : Dashboard) : Dashboard :=
  let st1 := showMessage "Loading CSV file..." "info" st in
  match file with
  | Throw e => loadFailed e st1
  | Normal text =>
      match parseCSV tz text with
      | Throw e => loadFailed e st1
      | Normal (ds, _) =>
          let st2 := setParsedData ds st1 in
          if Nat.ltb 0 (length (samples ds)) then
            let st3 :=
              showMessage ("Successfully loaded " +:+ showNat (length (samples ds))
                           +:+ " samples with " +:+ showNat (length (ds_timePoints ds))
                           +:+ " data points") "success" st2 in
            match renderDashboard st3 with
            | (st4, None) => st4
            | (st4, Some e) => loadFailed e st4
            end
          else loadFailed (Error "No valid data found in CSV file") st2
      end
  end.

(** The text of the success message. *)
Definition successMessage (ds : Dataset) : string :=
  "Successfully loaded " +:+ showNat (length (samples ds)) +:+ " samples with "
  +:+ showNat (length (ds_timePoints ds)) +:+ " data points".

(** [readFileAsText] rejects with this error. *)
Definition readFailed : completion string := Throw (Error "Failed to read file").

(** ** Notions for the statements on the added code *)

Fixpoint occursIn (c : ascii) (s : string) : bool :=
  match s with
  | EmptyString => false
  | String c' r => Ascii.eqb c' c || occursIn c r
  end.

(** The four tags of [detectTimeFormat]. *)
Definition knownFormat (format : string) : Prop :=
  format = "integer" \/ format = "datetime_string"
  \/ format = "epoch_milliseconds" \/ format = "epoch_seconds".

(** The messages of the four errors [parseCSV] throws. *)
Definition parseError (csvText : string) (e : exception) : Prop :=
  e = Error "CSV file must have at least 2 rows (header + data)"
  \/ e = Error "No sample columns found in CSV"
  \/ e = Error ("Unrecognized time format: " +:+ csvFirstToken csvText)
  \/ e = Error "No valid data rows found".

(** The chart agrees with the data and the visible set: one dataset per
    sample column, in order, hidden exactly when its label is not visible. *)
Definition chartInSync (st : Dashboard) : Prop :=
  exists ds c,
    parsedData st = Some ds /\ chart st = Some c
    /\ map Chart.label (Chart.datasets c) = samples ds
    /\ Forall (fun s => Chart.hidden s = negb (bool_decide (Chart.label s ∈ visibleSamples st)))
         (Chart.datasets c).

(** A dataset of the chart plots its sample: its [x] are the time points
    and its [y] the slots of the series under its label, none [undefined]. *)
Definition seriesPlotted (ds : Dataset) (s : Chart.Series) : Prop :=
  map Chart.x (Chart.data s) = ds_timePoints ds
  /\ exists series,
       ds_sampleData ds !! Chart.label s = Some series
       /\ forall k pt, Chart.data s !! k = Some pt ->
            Chart.y pt = series !! k /\ is_Some (Chart.y pt).

(** The states of a dashboard: no data and no chart yet, or a chart in
    step with the data. *)
Definition wellFormed (st : Dashboard) : Prop :=
  (parsedData st = None /\ chart st = None) \/ chartInSync st.

(** The visible set after [toggleSample]: the name leaves it or enters it. *)
Definition toggledSet (name : string) (visible : gset string) : gset string :=
  if bool_decide (name ∈ visible) then visible ∖ {[name]} else visible ∪ {[name]}.

(** [toggleSample] for each name of a list, in order, while none throws. *)
Fixpoint toggleAll (sampleNames : list string) (st : Dashboard) : Dashboard * option exception :=
  match sampleNames with
  | [] => (st, None)
  | name :: rest =>
      match toggleSample name st with
      | (st', None) => toggleAll rest st'
      | (st', Some e) => (st', Some e)
      end
  end.

(** The first guard of the row loop: as many fields as the header. *)
Definition arityOK (header : list string) (line : string) : bool :=
  Nat.eqb (length (splitRow line)) (length header).

(** The six fields [parseDateTimeString] reads from a value. *)
Definition datetimeFields (s : string) : list number :=
  [ parseInt (substr 0 4 s); parseInt (substr 4 2 s); parseInt (substr 6 2 s);
    parseInt (substr 8 2 s); parseInt (substr 10 2 s); parseInt (substr 12 2 s) ].

(** The length of month [month] (from 0) of [year]. *)
Definition daysInMonth (year month : Z) : Z :=
  if month =? 1 then (if Date.isLeapYear year then 29 else 28)
  else if (month =? 3) || (month =? 5) || (month =? 8) || (month =? 10) then 30
  else 31.

(** Read from the words of the specification: a numeric token is a
    decimal number as a whole, an optional sign, digits with an optional
    fraction, and an optional exponent, with nothing after it. *)
Definition numericToken (s : string) : bool :=
  let s1 := trim s in
  let s2 := match s1 with
            | String "-" r => r
            | String "+" r => r
            | _ => s1
            end in
  let '(_, ni, r1) := readDigits s2 0 0 in
  let '(nf, r2) := match r1 with
                   | String "." r => let '(_, n, r') := readDigits r 0 0 in (n, r')
                   | _ => (0, r1)
                   end in
  negb (ni + nf =? 0)
  && match r2 with
     | EmptyString => true
     | String c r =>
         if Ascii.eqb c "e" || Ascii.eqb c "E" then
           let r3 := match r with
                     | String "-" r' => r'
                     | String "+" r' => r'
                     | _ => r
                     end in
           let '(_, ne, r4) := readDigits r3 0 0 in
           negb (ne =? 0) && isEmpty r4
         else false
     end.

Definition fileWithPrefixCell : string :=
  "t,a" +:+ nl +:+ "0,12abc" +:+ nl +:+ "1,10:30".

(** * Format detection *)

(** C1. The token "1760784150" has ten digits and starts with 1: the first
    rule of [detectTimeFormat] takes it as an integer, before the rule for
    epoch seconds is tried. "1760784150234" is epoch milliseconds, "0"
    and "1" are integers. *)
Theorem detect_ten_digit_epoch_as_integer :
  detectTimeFormat "1760784150" = Normal "integer"
  /\ re_seconds "1760784150" = true
  /\ detectTimeFormat "1760784150234" = Normal "epoch_milliseconds"
  /\ detectTimeFormat "0" = Normal "integer"
  /\ detectTimeFormat "1" = Normal "integer".
Proof. repeat split; reflexivity. Qed.

(** C6. The 14-digit token "20251018134550" is a datetime string, not
    epoch milliseconds, although it also matches the pattern of thirteen
    or more digits. *)
Theorem detect_fourteen_digits_datetime :
  detectTimeFormat "20251018134550" = Normal "datetime_string"
  /\ detectTimeFormat "20251018134550" <> Normal "epoch_milliseconds"
  /\ re_millis "20251018134550" = true.
Proof. repeat split; try reflexivity. vm_compute. discriminate. Qed.

Lemma detect_cases (token : string) :
  detectTimeFormat token =
    if re_integer (trim token) && Nat.leb (String.length (trim token)) 10
    then Normal "integer"
    else if re_datetime (trim token) then Normal "datetime_string"
    else if re_millis (trim token) then Normal "epoch_milliseconds"
    else if re_seconds (trim token) then Normal "epoch_seconds"
    else if negb (isNaNf (parseFloat (trim token))) then Normal "integer"
    else Throw (Error ("Unrecognized time format: " +:+ token)).
Proof. reflexivity. Qed.

Lemma digit_not_whiteSpace (c : ascii) :
  isDigit c = true -> isWhiteSpace c = false.
Proof.
  unfold isDigit, isWhiteSpace. generalize (code c). intros n H.
  apply andb_prop in H as [H1 H2]. apply Z.leb_le in H1, H2.
  replace (n <=? 13) with false by (symmetry; apply Z.leb_gt; lia).
  replace (n =? 32) with false by (symmetry; apply Z.eqb_neq; lia).
  replace (n =? 160) with false by (symmetry; apply Z.eqb_neq; lia).
  by rewrite andb_false_r.
Qed.

(** [trim] leaves a string of digits as it is. *)
Lemma trim_digits (s : string) : allDigits s = true -> trim s = s.
Proof.
  intros H. unfold trim.
  assert (Hstart : trimStart s = s).
  { destruct s as [| c r]; [reflexivity |]. simpl in *.
    apply andb_prop in H as [Hc _]. by rewrite (digit_not_whiteSpace c Hc). }
  rewrite Hstart. induction s as [| c r IH]; [reflexivity |].
  simpl in *. apply andb_prop in H as [Hc Hr].
  rewrite (digit_not_whiteSpace c Hc). simpl. f_equal. apply IH; [assumption |].
  destruct r as [| c' r']; [reflexivity |]. simpl in *.
  apply andb_prop in Hr as [Hc' _]. by rewrite (digit_not_whiteSpace c' Hc').
Qed.

(** Every token of exactly 14 digits is a datetime string. *)
Lemma detect_any_fourteen_digits (s : string) :
  allDigits s = true -> String.length s = 14%nat ->
  detectTimeFormat s = Normal "datetime_string".
Proof.
  intros Hd Hlen. rewrite detect_cases, (trim_digits s Hd).
  unfold re_datetime. rewrite Hd, Hlen. simpl. by rewrite andb_false_r.
Qed.

(** Every token of ten digits that starts with 0 or 1 is an integer:
    the rule for epoch seconds is reached by ten-digit tokens from
    "2000000000" on, and by tokens of 11 or 12 digits. *)
Lemma detect_ten_digits_leading_01 (s : string) :
  re_integer s = true -> String.length s = 10%nat ->
  detectTimeFormat s = Normal "integer".
Proof.
  intros Hre Hlen. rewrite detect_cases.
  assert (Hd : allDigits s = true).
  { destruct s as [| c r]; [discriminate |]. simpl in *.
    apply andb_prop in Hre as [Hc Hr]. rewrite Hr, andb_true_r.
    apply orb_prop in Hc as [Hc | Hc]; apply Ascii.eqb_eq in Hc; by subst. }
  rewrite (trim_digits s Hd), Hre, Hlen. reflexivity.
Qed.




(** * Time values *)

(** C2. Under the epoch seconds format [processTimeValue] returns [null]
    for every token: the seconds are scaled to milliseconds, and then
    [dateFromSeconds.time()] throws, which the [catch] turns into [null].
    For "1760784150" the scaled value 1760784150000 is computed and lost. *)
Theorem epoch_seconds_always_null (tz : Date.TimeZone) (rawValue : string) :
  processTimeValue tz rawValue "epoch_seconds"
    = (None, [ProcessingError rawValue (TypeError "time is not a function")])
  /\ mul (parseInt "1760784150") (Num 1000) = Num 1760784150000
  /\ fst (processTimeValue tz "1760784150" "epoch_seconds") = None.
Proof. repeat split; reflexivity. Qed.

(** C3. Under the epoch milliseconds format [processTimeValue] returns
    [null] for every token: [formatDateTimeWithMs] calls [formatDateTime]
    without [this], a ReferenceError that the [catch] turns into [null]. *)
Theorem epoch_milliseconds_always_null (tz : Date.TimeZone) (rawValue : string) :
  processTimeValue tz rawValue "epoch_milliseconds"
    = (None, [ProcessingError rawValue (ReferenceError "formatDateTime is not defined")])
  /\ parseInt "1760784150234" = Num 1760784150234
  /\ acceptRow tz ["t"; "a"] "epoch_milliseconds" "1760784150234,1" = None.
Proof. repeat split; reflexivity. Qed.

(** A file of epoch milliseconds loses every row, and the parse fails. *)
Lemma epoch_milliseconds_file_rejected (tz : Date.TimeZone) :
  parseCSV tz ("t,a" +:+ nl +:+ "1760784150234,1" +:+ nl +:+ "1760784150734,2")
  = Throw (Error "No valid data rows found").
Proof. reflexivity. Qed.

(** A file of ten-digit epoch seconds is read as a file of integers. *)
Lemma epoch_seconds_file_read_as_integers (tz : Date.TimeZone) :
  exists ds,
    parseCSV tz ("t,a" +:+ nl +:+ "1760784150,1" +:+ nl +:+ "1760784151,2")
      = Normal (ds, [])
    /\ timeFormat ds = "integer"
    /\ ds_timePoints ds = [Num 1760784150; Num 1760784151].
Proof. eexists. repeat split; reflexivity. Qed.

(** ** The calendar month of a datetime string *)

Lemma Day_bounds (t lo hi : Z) :
  lo * Date.msPerDay <= t < (hi + 1) * Date.msPerDay -> lo <= Date.Day t <= hi.
Proof.
  unfold Date.Day, Date.msPerDay. intros [Hlo Hhi]. split.
  - apply Z.div_le_lower_bound; lia.
  - apply Z.lt_succ_r. apply Z.div_lt_upper_bound; lia.
Qed.

Lemma mid_november_2025 (t : Z) :
  20408 <= Date.Day t <= 20412 ->
  Date.MonthFromTime t = 10 /\ Date.YearFromTime t = 2025.
Proof.
  unfold Date.MonthFromTime, Date.InLeapYear, Date.DayWithinYear, Date.YearFromTime.
  generalize (Date.Day t). intros d Hd.
  assert (Hcases : d = 20408 \/ d = 20409 \/ d = 20410 \/ d = 20411 \/ d = 20412) by lia.
  destruct Hcases as [-> | [-> | [-> | [-> | ->]]]]; split; reflexivity.
Qed.

(** C4. [parseDateTimeString] passes the month field of "20251018134550"
    unchanged to [new Date], which counts months from 0: the timestamp is
    in month 10 of [getMonth], that is November 2025, and not in October,
    which is month 9. *)
Theorem datetime_string_month_is_november (tz : Date.TimeZone) :
  boundedZone tz ->
  exists d,
    parseDateTimeString tz "20251018134550" = Normal d
    /\ Date.getMonth tz d = Num 10
    /\ Date.getFullYear tz d = Num 2025
    /\ Date.getMonth tz d <> Num 9.
Proof.
  intros Hz. eexists. split; [reflexivity |].
  set (L := 1763473550000).
  assert (Hd : Date.ofComponents tz (parseInt (substr 0 4 "20251018134550"))
                 (parseInt (substr 4 2 "20251018134550"))
                 (parseInt (substr 6 2 "20251018134550"))
                 (parseInt (substr 8 2 "20251018134550"))
                 (parseInt (substr 10 2 "20251018134550"))
                 (parseInt (substr 12 2 "20251018134550"))
               = {| Date.DateValue := Date.TimeClip (Date.UTC tz L) |}) by reflexivity.
  rewrite Hd. clear Hd.
  pose proof (Hz L false) as H1.
  pose proof (Hz (Date.UTC tz L) true) as H2.
  unfold Date.msPerDay in H1, H2.
  assert (Hclip : Date.TimeClip (Date.UTC tz L) = Num (Date.UTC tz L)).
  { unfold Date.TimeClip, Date.UTC.
    destruct (Z.gtb_spec (Z.abs (L - Date.LocalTZA tz L false)) 8640000000000000);
      [unfold L in *; lia | reflexivity]. }
  unfold Date.getMonth, Date.getFullYear, Date.localField. simpl Date.DateValue.
  rewrite Hclip.
  destruct (mid_november_2025 (Date.LocalTime tz (Date.UTC tz L))) as [Hm Hy].
  { apply Day_bounds. unfold Date.LocalTime, Date.msPerDay.
    unfold Date.UTC in *. unfold L in *. lia. }
  rewrite Hm, Hy. repeat split; congruence.
Qed.

Lemma datetime_string_month_is_november_witness :
  boundedZone (Date.fixedZone 3600000)
  /\ exists d,
       parseDateTimeString (Date.fixedZone 3600000) "20251018134550" = Normal d
       /\ Date.getMonth (Date.fixedZone 3600000) d = Num 10
       /\ Date.getFullYear (Date.fixedZone 3600000) d = Num 2025
       /\ Date.getMonth (Date.fixedZone 3600000) d <> Num 9.
Proof.
  assert (Hz : boundedZone (Date.fixedZone 3600000)).
  { intros t b. simpl. unfold Date.msPerDay. lia. }
  split; [exact Hz |].
  exact (datetime_string_month_is_november (Date.fixedZone 3600000) Hz).
Defined.

(** * The row loop *)

Local Open Scope nat_scope.

Section RowLoop.

Variable tz : Date.TimeZone.
Variable header sampleNames : list string.
Variable timeFormat : string.

Implicit Types (data : gmap string (list (option float))) (st : rows).
Implicit Types (cells lines : list string) (name : string).

Lemma slots_nil name (names : list string) : slots name names [] = [].
Proof. destruct names; reflexivity. Qed.

Lemma push_cellValue name cell data series :
  data !! name = Some series ->
  (if isNaNf (parseFloat cell) then push name None data
   else push name (Some (parseFloat cell)) data)
  = Normal (<[name := series ++ [cellValue cell]]> data).
Proof.
  intros Hs. unfold cellValue, push.
  destruct (isNaNf (parseFloat cell)); rewrite Hs; reflexivity.
Qed.

Lemma allInitialised_insert data name series :
  allInitialised sampleNames data -> allInitialised sampleNames (<[name := series]> data).
Proof.
  intros Hall n Hn. destruct (decide (name = n)) as [-> | Hne].
  - rewrite lookup_insert_eq. eauto.
  - rewrite lookup_insert_ne by done. auto.
Qed.

(** The inner loop never throws, and appends to each series the slots of
    the columns that carry its name. *)
Lemma parseSamples_spec cells : forall i j data warns,
  1 <= j ->
  j - 1 + length cells <= length sampleNames ->
  allInitialised sampleNames data ->
  exists data' warns',
    parseSamples sampleNames i j cells data warns = Normal (data', warns')
    /\ allInitialised sampleNames data'
    /\ forall name,
         data' !! name
         = (fun series => series ++ slots name (drop (j - 1) sampleNames) cells)
             <$> data !! name.
Proof.
  induction cells as [| cell rest IH]; intros i j data warns Hj Hlen Hall.
  - exists data, warns. split; [reflexivity |]. split; [assumption |].
    intros name. rewrite slots_nil. destruct (data !! name); simpl; [| reflexivity].
    by rewrite app_nil_r.
  - simpl in Hlen.
    destruct (lookup_lt_is_Some_2 sampleNames (j - 1)) as [sn Hsn]; [lia |].
    destruct (Hall sn) as [series Hseries].
    { apply list_elem_of_lookup. eauto. }
    assert (Hnth : nth (j - 1) sampleNames "undefined" = sn)
      by (by apply nth_lookup_Some).
    pose proof (push_cellValue sn cell data series Hseries) as Hpush.
    set (data1 := <[sn := series ++ [cellValue cell]]> data) in *.
    assert (Hall1 : allInitialised sampleNames data1) by (by apply allInitialised_insert).
    assert (Hstep : forall warns1, exists data' warns',
               parseSamples sampleNames i (S j) rest data1 warns1 = Normal (data', warns')
               /\ allInitialised sampleNames data'
               /\ forall name,
                    data' !! name
                    = (fun s => s ++ slots name (drop (j - 1) sampleNames) (cell :: rest))
                        <$> data !! name).
    { intros warns1.
      destruct (IH i (S j) data1 warns1) as (data' & warns' & Hrun & Hall' & Hlook);
        [lia | lia | assumption |].
      exists data', warns'. split; [assumption |]. split; [assumption |].
      intros name. rewrite Hlook.
      replace (S j - 1) with (S (j - 1)) by lia.
      rewrite (drop_S sampleNames sn (j - 1) Hsn). simpl.
      unfold data1. destruct (String.eqb_spec sn name) as [-> | Hne].
      - rewrite lookup_insert_eq, Hseries. simpl. by rewrite <- app_assoc.
      - rewrite lookup_insert_ne by done. reflexivity. }
    simpl parseSamples. rewrite Hnth.
    destruct (isNaNf (parseFloat cell)); rewrite Hpush; simpl; apply Hstep.
Qed.

(** One iteration: a rejected line changes neither the time points nor
    the series; an accepted line adds one time point and its slots. *)
Lemma processRow_spec i line st :
  length header = S (length sampleNames) ->
  allInitialised sampleNames (sampleData st) ->
  exists st',
    processRow tz header sampleNames timeFormat i line st = Normal st'
    /\ allInitialised sampleNames (sampleData st')
    /\ match acceptRow tz header timeFormat line with
       | None =>
           timePoints st' = timePoints st
           /\ processedTimePoints st' = processedTimePoints st
           /\ sampleData st' = sampleData st
       | Some (p, cells) =>
           timePoints st' = timePoints st ++ [numeric p]
           /\ processedTimePoints st' = processedTimePoints st ++ [p]
           /\ length cells = length sampleNames
           /\ forall name,
                sampleData st' !! name
                = (fun series => series ++ slots name sampleNames cells)
                    <$> sampleData st !! name
       end.
Proof.
  intros Hhdr Hall. unfold processRow, acceptRow.
  destruct (Nat.eqb_spec (length (splitRow line)) (length header)) as [Heq | Hne]; simpl.
  - destruct (processTimeValue tz (nth 0 (splitRow line) "undefined") timeFormat)
      as [[p |] w]; simpl.
    + assert (Hcells : length (tail (splitRow line)) = length sampleNames).
      { destruct (splitRow line); simpl in *; lia. }
      destruct (parseSamples_spec (tail (splitRow line)) i 1 (sampleData st)
                  (warnings st ++ w)) as (data' & warns' & Hrun & Hall' & Hlook);
        [lia | lia | assumption |].
      rewrite Hrun. simpl. eexists. split; [reflexivity |]. simpl.
      split; [assumption |].
      split; [reflexivity |]. split; [reflexivity |]. split; [assumption |].
      intros name. rewrite Hlook. reflexivity.
    + eexists. split; [reflexivity |]. simpl. auto.
  - eexists. split; [reflexivity |]. simpl. auto.
Qed.

(** The whole loop, from any state: it never throws. *)
Lemma processRows_spec lines : forall i st,
  length header = S (length sampleNames) ->
  allInitialised sampleNames (sampleData st) ->
  let accepted := omap (acceptRow tz header timeFormat) lines in
  exists st',
    processRows tz header sampleNames timeFormat i lines st = Normal st'
    /\ timePoints st' = timePoints st ++ map (fun r => numeric (fst r)) accepted
    /\ processedTimePoints st' = processedTimePoints st ++ map fst accepted
    /\ Forall (fun r => length (snd r) = length sampleNames) accepted
    /\ forall name,
         sampleData st' !! name
         = (fun series => series ++ slotsOf sampleNames name accepted) <$> sampleData st !! name.
Proof.
  induction lines as [| line rest IH]; intros i st Hhdr Hall; simpl.
  - exists st. rewrite !app_nil_r.
    split; [reflexivity |]. split; [reflexivity |]. split; [reflexivity |].
    split; [constructor |].
    intros name. destruct (sampleData st !! name); simpl; [| reflexivity].
    by rewrite app_nil_r.
  - destruct (processRow_spec i line st Hhdr Hall) as (st1 & Hrun1 & Hall1 & Hrow).
    rewrite Hrun1. simpl.
    destruct (IH (S i) st1 Hhdr Hall1) as (st' & Hrun & Htp & Hptp & Hlen & Hlook).
    exists st'. split; [assumption |].
    destruct (acceptRow tz header timeFormat line) as [[p cells] |].
    + destruct Hrow as (Htp1 & Hptp1 & Hcells & Hlook1). simpl.
      rewrite Htp, Htp1, Hptp, Hptp1, <- !app_assoc. simpl.
      split; [reflexivity |]. split; [reflexivity |]. split.
      * constructor; assumption.
      * intros name. rewrite Hlook, Hlook1.
        destruct (sampleData st !! name); simpl; [| reflexivity].
        by rewrite <- app_assoc.
    + destruct Hrow as (Htp1 & Hptp1 & Hdata1). simpl.
      rewrite Htp, Htp1, Hptp, Hptp1.
      split; [reflexivity |]. split; [reflexivity |]. split; [assumption |].
      intros name. rewrite Hlook, Hdata1. reflexivity.
Qed.

End RowLoop.

(** * [parseCSV] *)

Lemma initSampleData_fold (names : list string) :
  forall (data : gmap string (list (option float))) (name : string),
    fold_left (fun d n => <[n := []]> d) names data !! name
    = if decide (name ∈ names) then Some [] else data !! name.
Proof.
  induction names as [| n ns IH]; intros data name; simpl.
  - destruct (decide (name ∈ [])) as [Hin | _]; [inversion Hin | reflexivity].
  - rewrite IH.
    destruct (decide (name ∈ ns)) as [Hin | Hnin].
    + rewrite decide_True; [reflexivity | by right].
    + destruct (decide (n = name)) as [-> | Hne].
      * rewrite lookup_insert_eq. rewrite decide_True; [reflexivity | by left].
      * rewrite lookup_insert_ne by done.
        rewrite decide_False; [reflexivity |].
        intros Hin. apply elem_of_cons in Hin as [-> | Hin]; congruence.
Qed.

Lemma initSampleData_initialised (names : list string) :
  forall name, name ∈ names -> initSampleData names !! name = Some [].
Proof.
  intros name Hin. unfold initSampleData. rewrite initSampleData_fold.
  by rewrite decide_True.
Qed.

Lemma parseCSV_unfold (tz : Date.TimeZone) (csvText : string) :
  parseCSV tz csvText =
    if Nat.ltb (length (csvLines csvText)) 2 then
      Throw (Error "CSV file must have at least 2 rows (header + data)")
    else if Nat.eqb (length (csvSampleNames csvText)) 0 then
      Throw (Error "No sample columns found in CSV")
    else
      do format <- detectTimeFormat (csvFirstToken csvText);
      do st <- processRows tz (csvHeader csvText) (csvSampleNames csvText) format 1
                 (tail (csvLines csvText)) (initialRows (csvSampleNames csvText));
      if Nat.eqb (length (timePoints st)) 0 then
        Throw (Error "No valid data rows found")
      else Normal (datasetOf csvText format st, warnings st).
Proof. reflexivity. Qed.

(** What the row loop leaves, from the initial state. *)
Lemma processRows_initial (tz : Date.TimeZone) (csvText format : string) :
  csvSampleNames csvText <> [] ->
  let names := csvSampleNames csvText in
  let accepted := acceptedRows tz format csvText in
  exists st,
    processRows tz (csvHeader csvText) names format 1 (tail (csvLines csvText))
      (initialRows names) = Normal st
    /\ timePoints st = map (fun r => numeric (fst r)) accepted
    /\ processedTimePoints st = map fst accepted
    /\ Forall (fun r => length (snd r) = length names) accepted
    /\ forall name, name ∈ names ->
         sampleData st !! name = Some (slotsOf names name accepted).
Proof.
  intros Hne names accepted.
  assert (Hhdr : length (csvHeader csvText) = S (length names)).
  { unfold names, csvSampleNames in *. destruct (csvHeader csvText); [done | reflexivity]. }
  assert (Hinit : allInitialised names (sampleData (initialRows names))).
  { intros name Hin. simpl. rewrite initSampleData_initialised; eauto. }
  destruct (processRows_spec tz (csvHeader csvText) names format
              (tail (csvLines csvText)) 1 (initialRows names) Hhdr Hinit)
    as (st & Hrun & Htp & Hptp & Hlen & Hlook).
  exists st. split; [exact Hrun |]. split; [exact Htp |]. split; [exact Hptp |].
  split; [exact Hlen |].
  intros name Hin. rewrite Hlook. simpl.
  rewrite initSampleData_initialised by assumption. reflexivity.
Qed.

(** A successful parse, read backwards. *)
Lemma parseCSV_inv (tz : Date.TimeZone) (csvText : string) (ds : Dataset) (w : list warning) :
  parseCSV tz csvText = Normal (ds, w) ->
  let names := csvSampleNames csvText in
  let accepted := acceptedRows tz (timeFormat ds) csvText in
  detectTimeFormat (csvFirstToken csvText) = Normal (timeFormat ds)
  /\ samples ds = names
  /\ accepted <> []
  /\ ds_timePoints ds = map (fun r => numeric (fst r)) accepted
  /\ ds_processedTimePoints ds = map fst accepted
  /\ Forall (fun r => length (snd r) = length names) accepted
  /\ forall name, name ∈ names ->
       ds_sampleData ds !! name = Some (slotsOf names name accepted).
Proof.
  rewrite parseCSV_unfold. intros Hparse names accepted.
  destruct (Nat.ltb (length (csvLines csvText)) 2); [discriminate |].
  destruct (Nat.eqb_spec (length (csvSampleNames csvText)) 0) as [| Hnames];
    [discriminate |].
  destruct (detectTimeFormat (csvFirstToken csvText)) as [format |] eqn:Hdet;
    [| discriminate].
  simpl in Hparse.
  destruct (processRows_initial tz csvText format) as (st & Hrun & Htp & Hptp & Hlen & Hlook).
  { intros Hnil. rewrite Hnil in Hnames. simpl in Hnames. lia. }
  rewrite Hrun in Hparse. simpl in Hparse.
  destruct (Nat.eqb_spec (length (timePoints st)) 0) as [| Hrows]; [discriminate |].
  injection Hparse as <- <-. unfold accepted. simpl.
  repeat (split; [first [reflexivity | assumption] |]).
  split; [| split; [assumption | split; [assumption | split; assumption]]].
  intros Hnil. rewrite Htp, Hnil in Hrows. simpl in Hrows. lia.
Qed.

(** A parse that meets no fatal error returns. *)
Lemma parseCSV_total (tz : Date.TimeZone) (csvText format : string) :
  csvSampleNames csvText <> [] ->
  detectTimeFormat (csvFirstToken csvText) = Normal format ->
  acceptedRows tz format csvText <> [] ->
  exists ds w, parseCSV tz csvText = Normal (ds, w) /\ timeFormat ds = format.
Proof.
  intros Hnames Hdet Hacc. rewrite parseCSV_unfold.
  destruct (Nat.ltb_spec (length (csvLines csvText)) 2) as [Hshort |].
  { exfalso. apply Hacc. unfold acceptedRows.
    destruct (csvLines csvText) as [| l0 [| l1 rest]]; simpl in *; [done | done | lia]. }
  destruct (Nat.eqb_spec (length (csvSampleNames csvText)) 0) as [Hzero |].
  { destruct (csvSampleNames csvText); [done | discriminate]. }
  rewrite Hdet. simpl.
  destruct (processRows_initial tz csvText format Hnames)
    as (st & Hrun & Htp & Hptp & Hlen & Hlook).
  rewrite Hrun. simpl.
  destruct (Nat.eqb_spec (length (timePoints st)) 0) as [Hzero |].
  { exfalso. apply Hacc. rewrite Htp, length_map in Hzero.
    by destruct (acceptedRows tz format csvText). }
  eauto.
Qed.

(** ** Counting slots *)

Lemma slots_length (name : string) (names : list string) : forall cells,
  length cells = length names ->
  length (slots name names cells) = occurrences name names.
Proof.
  induction names as [| n ns IH]; intros [| c cs] Hlen; simpl in *; try lia.
  destruct (String.eqb n name); simpl; rewrite IH; lia.
Qed.

Lemma slots_absent (name : string) (names : list string) : forall cells,
  occurrences name names = 0 -> slots name names cells = [].
Proof.
  induction names as [| n ns IH]; intros [| c cs] Hocc; simpl in *; try reflexivity.
  destruct (String.eqb n name); [discriminate | auto].
Qed.

Lemma occurrences_lookup (name : string) (names : list string) : forall j,
  names !! j = Some name -> 1 <= occurrences name names.
Proof.
  induction names as [| n ns IH]; intros [| j] Hj; simpl in *; try discriminate.
  - injection Hj as ->. rewrite String.eqb_refl. lia.
  - destruct (String.eqb n name); [lia | eauto].
Qed.

(** A name that heads one column only receives the cell of that column. *)
Lemma slots_single (name : string) (names : list string) : forall cells j cell,
  names !! j = Some name ->
  cells !! j = Some cell ->
  occurrences name names = 1 ->
  slots name names cells = [cellValue cell].
Proof.
  induction names as [| n ns IH]; intros [| c cs] [| j] cell Hn Hc Hocc;
    simpl in *; try discriminate.
  - injection Hn as ->. injection Hc as ->. rewrite String.eqb_refl in *.
    rewrite slots_absent; [reflexivity | lia].
  - destruct (String.eqb n name).
    + apply occurrences_lookup in Hn. lia.
    + eauto.
Qed.

Lemma occurrences_NoDup (name : string) (names : list string) :
  NoDup names -> name ∈ names -> occurrences name names = 1.
Proof.
  induction 1 as [| n ns Hnin Hnd IH]; intros Hin; [inversion Hin |].
  simpl. destruct (String.eqb_spec n name) as [-> | Hne].
  - f_equal. destruct (occurrences name ns) eqn:Hocc; [reflexivity |].
    exfalso. apply Hnin. clear -Hocc.
    induction ns as [| m ms IHm]; simpl in Hocc; [discriminate |].
    destruct (String.eqb_spec m name) as [-> | _]; [by left | right; auto].
  - apply elem_of_cons in Hin as [-> | Hin]; [congruence | auto].
Qed.

Lemma slotsOf_length (names : list string) (name : string)
    (accepted : list (TimePoint * list string)) :
  Forall (fun r => length (snd r) = length names) accepted ->
  length (slotsOf names name accepted) = occurrences name names * length accepted.
Proof.
  induction 1 as [| r rs Hr Hrs IH]; simpl; [lia |].
  rewrite length_app, IH, slots_length by assumption. lia.
Qed.

Lemma slotsOf_lookup (names : list string) (name : string)
    (accepted : list (TimePoint * list string)) : forall k p cells j cell,
  Forall (fun r => length (snd r) = length names) accepted ->
  occurrences name names = 1 ->
  names !! j = Some name ->
  accepted !! k = Some (p, cells) ->
  cells !! j = Some cell ->
  slotsOf names name accepted !! k = Some (cellValue cell).
Proof.
  intros k p cells j cell Hall Hocc Hname. revert k.
  induction Hall as [| r rs Hr Hrs IH]; intros [| k] Hk Hcell; simpl in *;
    try discriminate.
  - injection Hk as ->. simpl. by rewrite (slots_single name names cells j cell).
  - destruct (lookup_lt_is_Some_2 (snd r) j) as [c Hc].
    { rewrite Hr. apply lookup_lt_is_Some_1. eauto. }
    rewrite (slots_single name names (snd r) j c) by assumption. simpl. auto.
Qed.

Lemma occurrences_elem_of (name : string) (names : list string) :
  1 <= occurrences name names -> name ∈ names.
Proof.
  induction names as [| n ns IH]; simpl; [lia |].
  destruct (String.eqb_spec n name) as [-> | _]; [by left | right; auto].
Qed.

(** * Rows whose time value is rejected *)

(** A row of the right arity whose time value is [null] adds a warning
    and nothing else, and the loop goes on with the next line. *)
Lemma null_time_row_skipped (tz : Date.TimeZone) (header names : list string)
    (format : string) (i : nat) (line : string) (rest : list string) (st : rows)
    (w : list warning) :
  length (splitRow line) = length header ->
  processTimeValue tz (nth 0 (splitRow line) "undefined") format = (None, w) ->
  processRows tz header names format i (line :: rest) st
  = processRows tz header names format (S i) rest
      {| timePoints := timePoints st;
         processedTimePoints := processedTimePoints st;
         sampleData := sampleData st;
         warnings := warnings st ++ w
                     ++ [InvalidTime (i + 1) (nth 0 (splitRow line) "undefined")] |}.
Proof.
  intros Hlen Hnull. simpl. unfold processRow.
  rewrite Hlen, Nat.eqb_refl, Hnull. reflexivity.
Qed.

(** A datetime string that is not 14 characters long is rejected. *)
Lemma datetime_wrong_length_null (tz : Date.TimeZone) (rawValue : string) :
  String.length (trim rawValue) <> 14 ->
  fst (processTimeValue tz rawValue "datetime_string") = None.
Proof.
  intros Hlen. unfold processTimeValue, processTimeValue_try, parseDateTimeString.
  simpl. destruct (Nat.eqb_spec (String.length (trim rawValue)) 14); [done | reflexivity].
Qed.

(** C5. A time token that is not a number is not rejected under the
    integer format: [parseInt] gives [NaN], no exception is thrown, and
    the row is kept with the time value [NaN] and its sample slot. *)
Theorem non_numeric_time_row_kept (tz : Date.TimeZone) :
  processTimeValue tz "abc" "integer"
    = (Some {| numeric := NaN; date := None; display := Str "NaN"; raw := "abc" |}, [])
  /\ exists ds,
       parseCSV tz fileWithBadTime = Normal (ds, [])
       /\ ds_timePoints ds = [Num 0; NaN]
       /\ ds_sampleData ds !! "a"
          = Some [Some (FDecimal false 1 0); Some (FDecimal false 2 0)].
Proof.
  split; [reflexivity |].
  eexists. split; [reflexivity |]. split; reflexivity.
Qed.

(** * Series and time points *)

(** C7. In a dataset returned by [parseCSV] for a header with distinct
    sample names, the series of every sample has the length of
    [timePoints], which is the number of accepted rows: each accepted row
    pushes one slot on each series. *)
Theorem series_length_eq_timePoints (tz : Date.TimeZone) (csvText : string)
    (ds : Dataset) (w : list warning) :
  parseCSV tz csvText = Normal (ds, w) ->
  NoDup (samples ds) ->
  forall s, s ∈ samples ds ->
    exists series,
      ds_sampleData ds !! s = Some series
      /\ length series = length (ds_timePoints ds)
      /\ length (ds_timePoints ds) = length (acceptedRows tz (timeFormat ds) csvText).
Proof.
  intros Hparse Hnd s Hs.
  destruct (parseCSV_inv tz csvText ds w Hparse)
    as (_ & Hnames & _ & Htp & _ & Hlen & Hlook).
  rewrite Hnames in Hnd, Hs.
  exists (slotsOf (csvSampleNames csvText) s (acceptedRows tz (timeFormat ds) csvText)).
  split; [by apply Hlook |].
  rewrite slotsOf_length by assumption.
  rewrite (occurrences_NoDup s _ Hnd Hs), Htp, length_map. lia.
Qed.

Lemma series_length_eq_timePoints_witness :
  exists ds w series,
    parseCSV (Date.fixedZone 0) fileWithGaps = Normal (ds, w)
    /\ NoDup (samples ds)
    /\ "b" ∈ samples ds
    /\ ds_sampleData ds !! "b" = Some series
    /\ length series = length (ds_timePoints ds)
    /\ length (ds_timePoints ds) = 3.
Proof.
  destruct (parseCSV (Date.fixedZone 0) fileWithGaps) as [[ds w] | e] eqn:Hparse;
    [| vm_compute in Hparse; discriminate].
  assert (Hs : samples ds = ["a"; "b"]).
  { pose proof Hparse as H. vm_compute in H. injection H as <- _. reflexivity. }
  assert (Hnd : NoDup (samples ds)).
  { rewrite Hs. apply (bool_decide_unpack _). vm_compute. exact I. }
  assert (Hin : "b" ∈ samples ds).
  { rewrite Hs. apply (bool_decide_unpack _). vm_compute. exact I. }
  destruct (series_length_eq_timePoints (Date.fixedZone 0) fileWithGaps ds w
              Hparse Hnd "b" Hin) as (series & Hlook & Hlen & Hacc).
  exists ds, w, series. split; [reflexivity |].
  repeat (split; [assumption |]).
  clear -Hparse. vm_compute in Hparse. injection Hparse as <- _. reflexivity.
Defined.

(** C9, as stated, fails at the cells "12abc" and "10:30": neither token
    is a number, both rows are accepted, and the series holds 12 and 10
    at their indices, not [null]; no warning is given. *)
Lemma non_numeric_cell_with_numeric_prefix_stored :
  numericToken "12abc" = false
  /\ numericToken "10:30" = false
  /\ exists ds series,
       parseCSV (Date.fixedZone 0) fileWithPrefixCell = Normal (ds, [])
       /\ map snd (acceptedRows (Date.fixedZone 0) "integer" fileWithPrefixCell)
          = [["12abc"]; ["10:30"]]
       /\ ds_sampleData ds !! "a" = Some series
       /\ series = [Some (FDecimal false 12 0); Some (FDecimal false 10 0)]
       /\ series !! 0%nat <> Some None
       /\ series !! 1%nat <> Some None.
Proof.
  split; [reflexivity |]. split; [reflexivity |].
  eexists _, _. split; [reflexivity |]. split; [reflexivity |].
  split; [reflexivity |]. split; [reflexivity |].
  split; discriminate.
Qed.

(** C9, amended. In an accepted row, a sample cell that [parseFloat] reads
    as [NaN] (a token with no numeric prefix, as "abc" or the empty
    token) gives [null] at the index of the row in the series of its
    sample (the name heading one column only): the parse returns, the row
    is kept and its time point is at the same index. *)
Theorem non_numeric_cell_is_null (tz : Date.TimeZone) (csvText format : string)
    (k j : nat) (p : TimePoint) (cells : list string) (cell name : string) :
  detectTimeFormat (csvFirstToken csvText) = Normal format ->
  acceptedRows tz format csvText !! k = Some (p, cells) ->
  csvSampleNames csvText !! j = Some name ->
  occurrences name (csvSampleNames csvText) = 1 ->
  cells !! j = Some cell ->
  isNaNf (parseFloat cell) = true ->
  exists ds w series,
    parseCSV tz csvText = Normal (ds, w)
    /\ ds_timePoints ds !! k = Some (numeric p)
    /\ ds_processedTimePoints ds !! k = Some p
    /\ ds_sampleData ds !! name = Some series
    /\ series !! k = Some None
    /\ length series = length (ds_timePoints ds).
Proof.
  intros Hdet Hrow Hname Hocc Hcell Hnan.
  destruct (parseCSV_total tz csvText format) as (ds & w & Hparse & Hfmt).
  { intros Hnil. rewrite Hnil in Hname. discriminate. }
  { assumption. }
  { intros Hnil. rewrite Hnil in Hrow. discriminate. }
  destruct (parseCSV_inv tz csvText ds w Hparse)
    as (_ & _ & _ & Htp & Hptp & Hlen & Hlook).
  rewrite Hfmt in *.
  exists ds, w, (slotsOf (csvSampleNames csvText) name (acceptedRows tz format csvText)).
  split; [assumption |].
  split. { rewrite Htp, list_lookup_fmap, Hrow. reflexivity. }
  split. { rewrite Hptp, list_lookup_fmap, Hrow. reflexivity. }
  split. { apply Hlook. apply list_elem_of_lookup. eauto. }
  split.
  - rewrite (slotsOf_lookup _ name _ k p cells j cell) by assumption.
    unfold cellValue. rewrite Hnan. reflexivity.
  - rewrite slotsOf_length, Hocc, Htp, length_map by assumption. lia.
Qed.

Lemma non_numeric_cell_is_null_witness :
  exists ds w series,
    parseCSV (Date.fixedZone 0) fileWithGaps = Normal (ds, w)
    /\ ds_timePoints ds !! 1 = Some (Num 1)
    /\ ds_processedTimePoints ds !! 1
       = Some {| numeric := Num 1; date := None; display := Str "1"; raw := "1" |}
    /\ ds_sampleData ds !! "a" = Some series
    /\ series !! 1 = Some None
    /\ length series = length (ds_timePoints ds).
Proof.
  apply (non_numeric_cell_is_null (Date.fixedZone 0) fileWithGaps "integer" 1 0
           {| numeric := Num 1; date := None; display := Str "1"; raw := "1" |}
           ["abc"; "4.5"] "abc" "a"); reflexivity.
Defined.

(** C10. When a sample name heads two columns of the header, the parse
    still returns and [samples] keeps both occurrences, and the one series
    under that name receives two slots per accepted row: its length is
    twice the length of [timePoints], and differs from it. *)
Theorem duplicate_name_series_twice_as_long (tz : Date.TimeZone)
    (csvText format name : string) :
  detectTimeFormat (csvFirstToken csvText) = Normal format ->
  acceptedRows tz format csvText <> [] ->
  occurrences name (csvSampleNames csvText) = 2 ->
  exists ds w series,
    parseCSV tz csvText = Normal (ds, w)
    /\ samples ds = csvSampleNames csvText
    /\ ds_sampleData ds !! name = Some series
    /\ length (ds_timePoints ds) = length (acceptedRows tz format csvText)
    /\ length series = 2 * length (ds_timePoints ds)
    /\ length series <> length (ds_timePoints ds).
Proof.
  intros Hdet Hacc Hocc.
  destruct (parseCSV_total tz csvText format) as (ds & w & Hparse & Hfmt);
    [| assumption | assumption |].
  { intros Hnil. rewrite Hnil in Hocc. discriminate. }
  destruct (parseCSV_inv tz csvText ds w Hparse)
    as (_ & Hnames & _ & Htp & _ & Hlen & Hlook).
  rewrite Hfmt in *.
  exists ds, w, (slotsOf (csvSampleNames csvText) name (acceptedRows tz format csvText)).
  split; [assumption |]. split; [assumption |].
  split. { apply Hlook. apply occurrences_elem_of. lia. }
  rewrite slotsOf_length, Hocc, Htp, length_map by assumption.
  split; [reflexivity |]. split; [reflexivity |].
  destruct (acceptedRows tz format csvText); [done | simpl; lia].
Qed.

Lemma duplicate_name_series_twice_as_long_witness :
  exists ds w series,
    parseCSV (Date.fixedZone 0) fileWithTwin = Normal (ds, w)
    /\ samples ds = csvSampleNames fileWithTwin
    /\ ds_sampleData ds !! "a" = Some series
    /\ length (ds_timePoints ds) = length (acceptedRows (Date.fixedZone 0) "integer" fileWithTwin)
    /\ length series = 2 * length (ds_timePoints ds)
    /\ length series <> length (ds_timePoints ds).
Proof.
  apply (duplicate_name_series_twice_as_long (Date.fixedZone 0) fileWithTwin "integer" "a").
  - reflexivity.
  - vm_compute. discriminate.
  - reflexivity.
Defined.

(** The dataset of the file with a repeated name, computed. *)
Lemma fileWithTwin_dataset :
  exists ds,
    parseCSV (Date.fixedZone 0) fileWithTwin = Normal (ds, [])
    /\ samples ds = ["a"; "a"]
    /\ ds_timePoints ds = [Num 0; Num 1]
    /\ ds_sampleData ds !! "a"
       = Some [Some (FDecimal false 1 0); Some (FDecimal false 2 0);
               Some (FDecimal false 3 0); Some (FDecimal false 4 0)].
Proof. eexists. repeat split; reflexivity. Qed.

(** * Further properties of format detection *)

Local Open Scope Z_scope.

Lemma trimEnd_idempotent (s : string) : trimEnd (trimEnd s) = trimEnd s.
Proof.
  induction s as [| c r IH]; [reflexivity |]. simpl.
  destruct (isWhiteSpace c && isEmpty (trimEnd r)) eqn:Hc; [reflexivity |].
  simpl. rewrite IH, Hc. reflexivity.
Qed.

Lemma trimStart_trimEnd (s : string) :
  trimStart s = s -> trimStart (trimEnd s) = trimEnd s.
Proof.
  destruct s as [| c r]; [reflexivity |]. simpl.
  destruct (isWhiteSpace c) eqn:Hc.
  - intros Heq. exfalso.
    assert (Hlen : (String.length (trimStart r) <= String.length r)%nat).
    { clear. induction r as [| c r IH]; simpl; [lia |].
      destruct (isWhiteSpace c); simpl; lia. }
    rewrite Heq in Hlen. simpl in Hlen. lia.
  - intros _. simpl. rewrite Hc. reflexivity.
Qed.

Lemma trimStart_idempotent (s : string) : trimStart (trimStart s) = trimStart s.
Proof.
  induction s as [| c r IH]; [reflexivity |]. simpl.
  destruct (isWhiteSpace c) eqn:Hc; [assumption |]. simpl. by rewrite Hc.
Qed.

(** Trimming twice is trimming once. *)
Lemma trim_idempotent (s : string) : trim (trim s) = trim s.
Proof.
  unfold trim.
  rewrite (trimStart_trimEnd (trimStart s) (trimStart_idempotent s)).
  apply trimEnd_idempotent.
Qed.

Lemma detect_known (token format : string) :
  detectTimeFormat token = Normal format -> knownFormat format.
Proof.
  rewrite detect_cases. unfold knownFormat.
  repeat match goal with
         | |- context [if ?b then _ else _] => destruct b
         end; intros H; try discriminate H; injection H as <-; auto.
Qed.

(** X1. [detectTimeFormat] returns one of its four tags and nothing else, so
    the [default] branch of [processTimeValue] is never taken on a detected
    format. *)
Theorem detect_returns_known_format (token format : string) :
  detectTimeFormat token = Normal format -> knownFormat format.
Proof. apply detect_known. Qed.

Lemma detect_returns_known_format_witness :
  detectTimeFormat " 20251018134550 " = Normal "datetime_string"
  /\ knownFormat "datetime_string".
Proof.
  split; [reflexivity |].
  apply (detect_returns_known_format " 20251018134550 "). reflexivity.
Defined.

(** X2. White space around the token does not change its class: the
    token and the trimmed token are detected alike. *)
Theorem detect_ignores_surrounding_space (token format : string) :
  detectTimeFormat token = Normal format
  <-> detectTimeFormat (trim token) = Normal format.
Proof.
  rewrite !detect_cases, trim_idempotent.
  repeat match goal with
         | |- context [if ?b then _ else _] => destruct b
         end; split; intros H; try discriminate H; assumption.
Qed.

Lemma digit_cases (c : ascii) :
  isDigit c = true ->
  In c ["0"; "1"; "2"; "3"; "4"; "5"; "6"; "7"; "8"; "9"]%char.
Proof.
  destruct c as [[] [] [] [] [] [] [] []]; vm_compute; intros H;
    try discriminate H; tauto.
Qed.

Lemma readDigits_count (s : string) : forall acc count,
  count <= snd (fst (readDigits s acc count)).
Proof.
  induction s as [| c r IH]; intros acc count; simpl; [lia |].
  destruct (isDigit c); simpl; [| lia].
  specialize (IH (10 * acc + (code c - 48)) (count + 1)). lia.
Qed.

(** [parseFloat] reads a number from every string that starts with a digit. *)
Lemma parseFloat_leading_digit (c : ascii) (r : string) :
  isDigit c = true -> isNaNf (parseFloat (String c r)) = false.
Proof.
  intros Hc. unfold parseFloat.
  assert (Hstart : trimStart (String c r) = String c r).
  { simpl. by rewrite (digit_not_whiteSpace c Hc). }
  rewrite Hstart.
  assert (Hshape : forall c, isDigit c = true ->
            (match String c r with
             | String "-" r' => (true, r')
             | String "+" r' => (false, r')
             | _ => (false, String c r)
             end) = (false, String c r)
            /\ String.prefix "Infinity" (String c r) = false).
  { intros c0 H0. apply digit_cases in H0. simpl in H0.
    repeat (destruct H0 as [<- | H0]; [split; reflexivity |]). destruct H0. }
  destruct (Hshape c Hc) as [-> ->].
  pose proof (readDigits_count (String c r) 0 0) as Hcount.
  change (readDigits (String c r) 0 0)
    with (if isDigit c then readDigits r (10 * 0 + (code c - 48)) (0 + 1)
          else (0, 0, String c r)) in *.
  rewrite Hc in *.
  pose proof (readDigits_count r (10 * 0 + (code c - 48)) (0 + 1)) as Hni.
  destruct (readDigits r (10 * 0 + (code c - 48)) (0 + 1)) as [[ip ni] r1].
  simpl in Hni.
  assert (Hfrac : forall r', let '(m, nf, r2) := readDigits r' ip 0 in 0 <= nf).
  { intros r'. pose proof (readDigits_count r' ip 0) as H.
    destruct (readDigits r' ip 0) as [[m nf] r2]. exact H. }
  destruct r1 as [| c1 r1'].
  - destruct (Z.eqb_spec (ni + 0) 0); [lia | reflexivity].
  - destruct (Ascii.eqb_spec c1 ".") as [-> | Hdot].
    + specialize (Hfrac r1'). destruct (readDigits r1' ip 0) as [[m nf] r2].
      destruct (Z.eqb_spec (ni + nf) 0); [lia | reflexivity].
    + assert (Hm : (match String c1 r1' with
                    | String "." r' => readDigits r' ip 0
                    | _ => (ip, 0, String c1 r1')
                    end) = (ip, 0, String c1 r1')).
      { destruct c1 as [[] [] [] [] [] [] [] []]; try reflexivity. congruence. }
      rewrite Hm. destruct (Z.eqb_spec (ni + 0) 0); [lia | reflexivity].
Qed.

Lemma detect_ignores_surrounding_space_witness :
  detectTimeFormat "  42 " = Normal "integer"
  /\ detectTimeFormat (trim "  42 ") = Normal "integer".
Proof.
  split; [reflexivity |].
  apply (proj1 (detect_ignores_surrounding_space "  42 " "integer")). reflexivity.
Defined.

(** X3. A token made of digits only is always classified, by its length:
    up to 9 digits an integer; 10 digits an integer when the first is 0 or
    1 and epoch seconds otherwise; 11 or 12 digits epoch seconds; 14
    digits a datetime string; 13 digits, or 15 and more, epoch
    milliseconds. *)
Theorem detect_digit_token_by_length (s : string) :
  allDigits s = true ->
  s <> EmptyString ->
  detectTimeFormat s
  = Normal (if Nat.leb (String.length s) 9 then "integer"
            else if Nat.eqb (String.length s) 10
                 then (if re_integer s then "integer" else "epoch_seconds")
            else if Nat.leb (String.length s) 12 then "epoch_seconds"
            else if Nat.eqb (String.length s) 14 then "datetime_string"
            else "epoch_milliseconds").
Proof.
  intros Hd Hne. rewrite detect_cases, (trim_digits s Hd).
  unfold re_datetime, re_millis, re_seconds. rewrite Hd, !andb_true_l.
  assert (Hpf : isNaNf (parseFloat s) = false).
  { destruct s as [| c r]; [done |]. simpl in Hd. apply andb_prop in Hd as [Hc _].
    by apply parseFloat_leading_digit. }
  rewrite Hpf. cbv [negb].
  generalize (String.length s). intros n.
  destruct (re_integer s);
    repeat match goal with
           | |- context [Nat.leb ?a ?b] => destruct (Nat.leb_spec a b)
           | |- context [Nat.eqb ?a ?b] => destruct (Nat.eqb_spec a b)
           end; simpl; first [reflexivity | exfalso; lia].
Qed.

Lemma detect_digit_token_by_length_witness :
  allDigits "2000000000" = true
  /\ "2000000000" <> EmptyString
  /\ detectTimeFormat "2000000000" = Normal "epoch_seconds".
Proof.
  split; [reflexivity |]. split; [discriminate |].
  apply (detect_digit_token_by_length "2000000000"); [reflexivity | discriminate].
Defined.

(** * Further properties of [parseCSV] *)

Local Open Scope nat_scope.

Lemma split_nonempty (sep : ascii) (s : string) : 1 <= length (split sep s).
Proof.
  induction s as [| c r IH]; simpl; [lia |].
  destruct (Ascii.eqb c sep); simpl; [lia |].
  destruct (split sep r); simpl in *; lia.
Qed.

Lemma split_length_one (sep : ascii) (s : string) :
  length (split sep s) = 1 <-> occursIn sep s = false.
Proof.
  induction s as [| c r IH]; simpl; [done |].
  pose proof (split_nonempty sep r) as Hne.
  destruct (Ascii.eqb c sep); simpl.
  - split; [intros H; lia | discriminate].
  - destruct (split sep r) as [| h t]; simpl in *; [lia | exact IH].
Qed.

Lemma detect_throw_message (token : string) (e : exception) :
  detectTimeFormat token = Throw e ->
  e = Error ("Unrecognized time format: " +:+ token).
Proof.
  rewrite detect_cases.
  repeat match goal with
         | |- context [if ?b then _ else _] => destruct b
         end; intros H; try discriminate H. by injection H as <-.
Qed.

(** The outcome of [parseCSV], guard by guard. *)
Lemma parseCSV_outcome (tz : Date.TimeZone) (csvText : string) :
  (length (csvLines csvText) < 2
   /\ parseCSV tz csvText = Throw (Error "CSV file must have at least 2 rows (header + data)"))
  \/ (2 <= length (csvLines csvText) /\ csvSampleNames csvText = []
      /\ parseCSV tz csvText = Throw (Error "No sample columns found in CSV"))
  \/ (2 <= length (csvLines csvText) /\ csvSampleNames csvText <> []
      /\ detectTimeFormat (csvFirstToken csvText)
         = Throw (Error ("Unrecognized time format: " +:+ csvFirstToken csvText))
      /\ parseCSV tz csvText
         = Throw (Error ("Unrecognized time format: " +:+ csvFirstToken csvText)))
  \/ (exists format,
        2 <= length (csvLines csvText) /\ csvSampleNames csvText <> []
        /\ detectTimeFormat (csvFirstToken csvText) = Normal format
        /\ acceptedRows tz format csvText = []
        /\ parseCSV tz csvText = Throw (Error "No valid data rows found"))
  \/ (exists format ds w,
        2 <= length (csvLines csvText) /\ csvSampleNames csvText <> []
        /\ detectTimeFormat (csvFirstToken csvText) = Normal format
        /\ acceptedRows tz format csvText <> []
        /\ parseCSV tz csvText = Normal (ds, w)
        /\ timeFormat ds = format).
Proof.
  rewrite parseCSV_unfold.
  destruct (Nat.ltb_spec (length (csvLines csvText)) 2) as [Hshort | Hlines];
    [left; split; [assumption | reflexivity] | right].
  destruct (Nat.eqb_spec (length (csvSampleNames csvText)) 0) as [Hzero | Hnz].
  { left. split; [assumption |]. split; [| reflexivity].
    by destruct (csvSampleNames csvText). }
  right.
  assert (Hnames : csvSampleNames csvText <> []).
  { intros Hnil. rewrite Hnil in Hnz. simpl in Hnz. lia. }
  destruct (detectTimeFormat (csvFirstToken csvText)) as [format | e] eqn:Hdet.
  - right. simpl.
    destruct (processRows_initial tz csvText format Hnames)
      as (st & Hrun & Htp & _).
    rewrite Hrun. simpl. rewrite Htp, length_map.
    destruct (acceptedRows tz format csvText) as [| r rs] eqn:Hacc.
    + left. exists format. rewrite Hacc. repeat (split; [done |]). reflexivity.
    + right. eexists format, _, _. rewrite Hacc.
      repeat (split; [done |]). split; reflexivity.
  - left. rewrite (detect_throw_message _ e Hdet). simpl. done.
Qed.

(** X4. [parseCSV] throws nothing but its four errors: too few lines, no
    sample column, the unrecognized format of the first time value, no
    valid data row. No TypeError escapes the row loop. *)
Theorem parseCSV_throws_only_its_errors (tz : Date.TimeZone) (csvText : string)
    (e : exception) :
  parseCSV tz csvText = Throw e -> parseError csvText e.
Proof.
  intros He. unfold parseError.
  destruct (parseCSV_outcome tz csvText)
    as [[_ H] | [(_ & _ & H) | [(_ & _ & _ & H) | [(f & _ & _ & _ & _ & H)
       | (f & ds & w & _ & _ & _ & _ & H & _)]]]];
    rewrite H in He; try discriminate He; injection He as <-; auto.
Qed.

Lemma parseCSV_throws_only_its_errors_witness :
  parseCSV (Date.fixedZone 0) "t,a" = Throw (Error "CSV file must have at least 2 rows (header + data)")
  /\ parseError "t,a" (Error "CSV file must have at least 2 rows (header + data)").
Proof.
  split; [reflexivity |].
  apply (parseCSV_throws_only_its_errors (Date.fixedZone 0) "t,a"). reflexivity.
Defined.

(** X5. The text has too few rows exactly when, once trimmed, it holds no
    line feed: the empty text and a lone header are refused with the
    two-rows error, and no other text is. *)
Theorem parseCSV_too_few_rows_iff (tz : Date.TimeZone) (csvText : string) :
  parseCSV tz csvText = Throw (Error "CSV file must have at least 2 rows (header + data)")
  <-> occursIn "010" (trim csvText) = false.
Proof.
  rewrite <- split_length_one. fold (csvLines csvText).
  pose proof (split_nonempty "010" (trim csvText)) as Hne. fold (csvLines csvText) in Hne.
  destruct (parseCSV_outcome tz csvText)
    as [[Hl H] | [(Hl & _ & H) | [(Hl & _ & _ & H) | [(f & Hl & _ & _ & _ & H)
       | (f & ds & w & Hl & _ & _ & _ & H & _)]]]];
    rewrite H; split; intros Hx; try discriminate Hx; try lia; try reflexivity.
Qed.

Lemma parseCSV_too_few_rows_iff_witness :
  occursIn "010" (trim "") = false
  /\ parseCSV (Date.fixedZone 0) ""
     = Throw (Error "CSV file must have at least 2 rows (header + data)").
Proof.
  split; [reflexivity |].
  apply (proj2 (parseCSV_too_few_rows_iff (Date.fixedZone 0) "")). reflexivity.
Defined.

(** X6. [parseCSV] returns a dataset exactly when the header has a sample
    column, the first time value is of a recognized format, and at least
    one data row is accepted under that format. *)
Theorem parseCSV_returns_iff (tz : Date.TimeZone) (csvText : string) :
  (exists ds w, parseCSV tz csvText = Normal (ds, w))
  <-> csvSampleNames csvText <> []
      /\ exists format,
           detectTimeFormat (csvFirstToken csvText) = Normal format
           /\ acceptedRows tz format csvText <> [].
Proof.
  split.
  - intros (ds & w & Hparse).
    destruct (parseCSV_inv tz csvText ds w Hparse) as (Hdet & _ & Hacc & _).
    split; [| by exists (timeFormat ds)].
    intros Hnil. apply Hacc. clear -Hnil Hparse.
    rewrite parseCSV_unfold in Hparse. rewrite Hnil in Hparse. simpl in Hparse.
    destruct (length (csvLines csvText) <? 2); discriminate.
  - intros (Hnames & format & Hdet & Hacc).
    destruct (parseCSV_total tz csvText format Hnames Hdet Hacc) as (ds & w & H & _).
    eauto.
Qed.

Lemma parseCSV_returns_iff_witness :
  csvSampleNames fileWithGaps <> []
  /\ (exists format,
        detectTimeFormat (csvFirstToken fileWithGaps) = Normal format
        /\ acceptedRows (Date.fixedZone 0) format fileWithGaps <> [])
  /\ exists ds w, parseCSV (Date.fixedZone 0) fileWithGaps = Normal (ds, w).
Proof.
  assert (H1 : csvSampleNames fileWithGaps <> []) by (vm_compute; discriminate).
  assert (H2 : exists format,
             detectTimeFormat (csvFirstToken fileWithGaps) = Normal format
             /\ acceptedRows (Date.fixedZone 0) format fileWithGaps <> []).
  { exists "integer". split; [reflexivity | vm_compute; discriminate]. }
  split; [exact H1 |]. split; [exact H2 |].
  exact (proj2 (parseCSV_returns_iff (Date.fixedZone 0) fileWithGaps) (conj H1 H2)).
Defined.

Lemma epoch_formats_null (tz : Date.TimeZone) (rawValue : string) :
  fst (processTimeValue tz rawValue "epoch_seconds") = None
  /\ fst (processTimeValue tz rawValue "epoch_milliseconds") = None.
Proof. split; reflexivity. Qed.

Lemma acceptRow_epoch (tz : Date.TimeZone) (header : list string) (line : string) :
  acceptRow tz header "epoch_seconds" line = None
  /\ acceptRow tz header "epoch_milliseconds" line = None.
Proof.
  unfold acceptRow.
  destruct (Nat.eqb (length (splitRow line)) (length header)); [| done].
  destruct (epoch_formats_null tz (nth 0 (splitRow line) "undefined")) as [-> ->]. done.
Qed.

Lemma acceptedRows_epoch (tz : Date.TimeZone) (csvText : string) :
  acceptedRows tz "epoch_seconds" csvText = []
  /\ acceptedRows tz "epoch_milliseconds" csvText = [].
Proof.
  unfold acceptedRows. generalize (csvHeader csvText). intros header.
  induction (tail (csvLines csvText)) as [| line rest [IH1 IH2]]; [done |].
  simpl. destruct (acceptRow_epoch tz header line) as [-> ->]. done.
Qed.

Lemma parsed_format_cases (tz : Date.TimeZone) (csvText : string)
    (ds : Dataset) (w : list warning) :
  parseCSV tz csvText = Normal (ds, w) ->
  timeFormat ds = "integer" \/ timeFormat ds = "datetime_string".
Proof.
  intros Hparse.
  destruct (parseCSV_inv tz csvText ds w Hparse) as (Hdet & _ & Hacc & _).
  destruct (acceptedRows_epoch tz csvText) as [Hs Hms].
  destruct (detect_known _ _ Hdet) as [H | [H | [H | H]]];
    rewrite H in *; auto; contradiction.
Qed.

(** X7. No file of epoch seconds or epoch milliseconds loads: under these
    two formats every row is rejected, so a dataset returned by [parseCSV]
    has the format integer or datetime string. *)
Theorem parsed_dataset_never_epoch (tz : Date.TimeZone) (csvText : string)
    (ds : Dataset) (w : list warning) :
  parseCSV tz csvText = Normal (ds, w) ->
  (timeFormat ds = "integer" \/ timeFormat ds = "datetime_string")
  /\ timeFormat ds <> "epoch_seconds"
  /\ timeFormat ds <> "epoch_milliseconds".
Proof.
  intros Hparse.
  destruct (parsed_format_cases tz csvText ds w Hparse) as [H | H];
    rewrite H; repeat split; auto; discriminate.
Qed.

Lemma parsed_dataset_never_epoch_witness :
  exists ds w,
    parseCSV (Date.fixedZone 0) fileWithGaps = Normal (ds, w)
    /\ (timeFormat ds = "integer" \/ timeFormat ds = "datetime_string")
    /\ timeFormat ds <> "epoch_seconds"
    /\ timeFormat ds <> "epoch_milliseconds".
Proof.
  destruct (parseCSV (Date.fixedZone 0) fileWithGaps) as [[ds w] | e] eqn:Hparse;
    [| vm_compute in Hparse; discriminate].
  exists ds, w. split; [reflexivity |].
  exact (parsed_dataset_never_epoch (Date.fixedZone 0) fileWithGaps ds w Hparse).
Defined.

(** X8. A file whose first time value is classified as epoch seconds or
    epoch milliseconds is refused as a whole with "No valid data rows
    found", whatever its rows hold. *)
Theorem epoch_file_refused (tz : Date.TimeZone) (csvText : string) :
  2 <= length (csvLines csvText) ->
  csvSampleNames csvText <> [] ->
  detectTimeFormat (csvFirstToken csvText) = Normal "epoch_seconds"
  \/ detectTimeFormat (csvFirstToken csvText) = Normal "epoch_milliseconds" ->
  parseCSV tz csvText = Throw (Error "No valid data rows found").
Proof.
  intros Hlines Hnames Hdet.
  destruct (acceptedRows_epoch tz csvText) as [Hs Hms].
  destruct (parseCSV_outcome tz csvText)
    as [[Hl _] | [(_ & Hn & _) | [(_ & _ & Hd & _) | [(f & _ & _ & _ & _ & H)
       | (f & ds & w & _ & _ & Hd & Hacc & _)]]]];
    [lia | contradiction | destruct Hdet as [H | H]; congruence | exact H |].
  exfalso. destruct Hdet as [H | H]; rewrite H in Hd; injection Hd as <-; contradiction.
Qed.

Lemma epoch_file_refused_witness :
  parseCSV (Date.fixedZone 0)
    ("t,a" +:+ nl +:+ "2000000000,1" +:+ nl +:+ "2000000001,2")
  = Throw (Error "No valid data rows found").
Proof.
  apply epoch_file_refused.
  - vm_compute. lia.
  - vm_compute. discriminate.
  - left. reflexivity.
Defined.

(** X9. In a dataset returned by [parseCSV], [timePoints] is
    [processedTimePoints] read through [numeric], index by index, and
    neither is empty. *)
Theorem timePoints_are_numeric_of_processed (tz : Date.TimeZone) (csvText : string)
    (ds : Dataset) (w : list warning) :
  parseCSV tz csvText = Normal (ds, w) ->
  ds_timePoints ds = map numeric (ds_processedTimePoints ds)
  /\ ds_timePoints ds <> [].
Proof.
  intros Hparse.
  destruct (parseCSV_inv tz csvText ds w Hparse) as (_ & _ & Hacc & Htp & Hptp & _).
  rewrite Htp, Hptp, map_map. split; [reflexivity |].
  destruct (acceptedRows tz (timeFormat ds) csvText); [done | discriminate].
Qed.

Lemma timePoints_are_numeric_of_processed_witness :
  exists ds w,
    parseCSV (Date.fixedZone 0) fileWithGaps = Normal (ds, w)
    /\ ds_timePoints ds = map numeric (ds_processedTimePoints ds)
    /\ ds_timePoints ds <> [].
Proof.
  destruct (parseCSV (Date.fixedZone 0) fileWithGaps) as [[ds w] | e] eqn:Hparse;
    [| vm_compute in Hparse; discriminate].
  exists ds, w. split; [reflexivity |].
  exact (timePoints_are_numeric_of_processed (Date.fixedZone 0) fileWithGaps ds w Hparse).
Defined.

(** X11. In an accepted row, the cell of a sample whose name heads one
    column is stored at the index of the row in that series: [null] when
    [parseFloat] reads [NaN], the number read by [parseFloat] otherwise. *)
Theorem sample_cell_stored_at_row_index (tz : Date.TimeZone) (csvText format : string)
    (k j : nat) (p : TimePoint) (cells : list string) (cell name : string) :
  detectTimeFormat (csvFirstToken csvText) = Normal format ->
  acceptedRows tz format csvText !! k = Some (p, cells) ->
  csvSampleNames csvText !! j = Some name ->
  occurrences name (csvSampleNames csvText) = 1 ->
  cells !! j = Some cell ->
  exists ds w series,
    parseCSV tz csvText = Normal (ds, w)
    /\ ds_sampleData ds !! name = Some series
    /\ series !! k
       = Some (if isNaNf (parseFloat cell) then None else Some (parseFloat cell)).
Proof.
  intros Hdet Hrow Hname Hocc Hcell.
  destruct (parseCSV_total tz csvText format) as (ds & w & Hparse & Hfmt).
  { intros Hnil. rewrite Hnil in Hname. discriminate. }
  { assumption. }
  { intros Hnil. rewrite Hnil in Hrow. discriminate. }
  destruct (parseCSV_inv tz csvText ds w Hparse)
    as (_ & _ & _ & _ & _ & Hlen & Hlook).
  rewrite Hfmt in *.
  exists ds, w, (slotsOf (csvSampleNames csvText) name (acceptedRows tz format csvText)).
  split; [assumption |].
  split. { apply Hlook. apply list_elem_of_lookup. eauto. }
  by rewrite (slotsOf_lookup _ name _ k p cells j cell).
Qed.

Lemma sample_cell_stored_at_row_index_witness :
  exists ds w series,
    parseCSV (Date.fixedZone 0) fileWithGaps = Normal (ds, w)
    /\ ds_sampleData ds !! "b" = Some series
    /\ series !! 1
       = Some (if isNaNf (parseFloat "4.5") then None else Some (parseFloat "4.5")).
Proof.
  apply (sample_cell_stored_at_row_index (Date.fixedZone 0) fileWithGaps "integer" 1 1
           {| numeric := Num 1; date := None; display := Str "1"; raw := "1" |}
           ["abc"; "4.5"] "4.5" "b"); reflexivity.
Defined.

Lemma splitRow_trimmed (line : string) :
  Forall (fun field => trim field = field) (splitRow line).
Proof.
  unfold splitRow. induction (split "," line) as [| f fs IH]; simpl; constructor.
  - apply trim_idempotent.
  - exact IH.
Qed.

Lemma splitRow_nonempty (line : string) : 1 <= length (splitRow line).
Proof. unfold splitRow. rewrite length_map. apply split_nonempty. Qed.

Lemma acceptRow_integer (tz : Date.TimeZone) (header : list string) (line : string) :
  acceptRow tz header "integer" line
  = if arityOK header line
    then Some ({| numeric := parseInt (trim (nth 0 (splitRow line) "undefined"));
                  date := None;
                  display := Str (toString (parseInt (trim (nth 0 (splitRow line) "undefined"))));
                  raw := nth 0 (splitRow line) "undefined" |},
               tail (splitRow line))
    else None.
Proof. unfold acceptRow, arityOK. by destruct (Nat.eqb _ _). Qed.

Lemma acceptedRows_integer (tz : Date.TimeZone) (header : list string)
    (lines : list string) :
  map (fun r => numeric (fst r)) (omap (acceptRow tz header "integer") lines)
  = map (fun line => parseInt (nth 0 (splitRow line) ""))
      (List.filter (arityOK header) lines).
Proof.
  induction lines as [| line rest IH]; [reflexivity |].
  cbn [omap list_omap List.filter]. rewrite acceptRow_integer.
  destruct (arityOK header line); [| exact IH].
  cbn [map fst numeric]. rewrite IH. f_equal. f_equal.
  pose proof (splitRow_trimmed line) as Htrim.
  pose proof (splitRow_nonempty line) as Hne.
  destruct (splitRow line) as [| f fs]; simpl in *; [lia |].
  by inversion Htrim.
Qed.

(** X12. Under the integer format no row is rejected for its time value:
    the time points are [parseInt] of the first field of the data lines
    that have as many fields as the header, in order. *)
Theorem integer_rows_rejected_only_for_arity (tz : Date.TimeZone) (csvText : string)
    (ds : Dataset) (w : list warning) :
  parseCSV tz csvText = Normal (ds, w) ->
  timeFormat ds = "integer" ->
  ds_timePoints ds
  = map (fun line => parseInt (nth 0 (splitRow line) ""))
      (List.filter (arityOK (csvHeader csvText)) (tail (csvLines csvText))).
Proof.
  intros Hparse Hfmt.
  destruct (parseCSV_inv tz csvText ds w Hparse) as (_ & _ & _ & Htp & _).
  rewrite Htp, Hfmt. apply acceptedRows_integer.
Qed.

Lemma integer_rows_rejected_only_for_arity_witness :
  exists ds w,
    parseCSV (Date.fixedZone 0) fileWithGaps = Normal (ds, w)
    /\ timeFormat ds = "integer"
    /\ ds_timePoints ds = [Num 0; Num 1; Num 3].
Proof.
  destruct (parseCSV (Date.fixedZone 0) fileWithGaps) as [[ds w] | e] eqn:Hparse;
    [| vm_compute in Hparse; discriminate].
  assert (Hfmt : timeFormat ds = "integer").
  { pose proof Hparse as H. vm_compute in H. injection H as <- _. reflexivity. }
  exists ds, w. split; [reflexivity |]. split; [exact Hfmt |].
  rewrite (integer_rows_rejected_only_for_arity (Date.fixedZone 0) fileWithGaps ds w
             Hparse Hfmt).
  reflexivity.
Defined.

(** X13. Under the datetime format a time value is accepted exactly when,
    trimmed, it is 14 characters long: the characters need not be digits. *)
Theorem datetime_accepted_iff_14_characters (tz : Date.TimeZone) (rawValue : string) :
  fst (processTimeValue tz rawValue "datetime_string") <> None
  <-> String.length (trim rawValue) = 14.
Proof.
  unfold processTimeValue, processTimeValue_try, parseDateTimeString. simpl.
  destruct (Nat.eqb_spec (String.length (trim rawValue)) 14) as [Heq | Hne]; simpl.
  - split; [done | discriminate].
  - split; [done | intros H; contradiction].
Qed.

Lemma datetime_accepted_iff_14_characters_witness :
  String.length (trim " 2025-10-18 1:2 ") = 14
  /\ fst (processTimeValue (Date.fixedZone 0) " 2025-10-18 1:2 " "datetime_string") <> None.
Proof.
  split; [reflexivity |].
  apply (proj2 (datetime_accepted_iff_14_characters (Date.fixedZone 0) " 2025-10-18 1:2 ")).
  reflexivity.
Defined.

(** X14. A datetime value of 14 characters with a field that [parseInt]
    cannot read is accepted as an invalid date: its [numeric] is [NaN] and
    its [display] is "NaN-NaN-NaN NaN:NaN:NaN". *)
Theorem datetime_unreadable_field_gives_NaN (tz : Date.TimeZone) (rawValue : string) :
  String.length (trim rawValue) = 14 ->
  existsb (fun '(start, len) => isNaN (parseInt (substr start len (trim rawValue))))
    [(0, 4); (4, 2); (6, 2); (8, 2); (10, 2); (12, 2)] = true ->
  processTimeValue tz rawValue "datetime_string"
  = (Some {| numeric := NaN;
             date := Some {| Date.DateValue := NaN |};
             display := Str "NaN-NaN-NaN NaN:NaN:NaN";
             raw := rawValue |}, []).
Proof.
  intros Hlen Hnan.
  unfold processTimeValue, processTimeValue_try, parseDateTimeString. simpl.
  rewrite Hlen. simpl. simpl in Hnan.
  assert (Hd : Date.ofComponents tz (parseInt (substr 0 4 (trim rawValue)))
                 (parseInt (substr 4 2 (trim rawValue)))
                 (parseInt (substr 6 2 (trim rawValue)))
                 (parseInt (substr 8 2 (trim rawValue)))
                 (parseInt (substr 10 2 (trim rawValue)))
                 (parseInt (substr 12 2 (trim rawValue)))
               = {| Date.DateValue := NaN |}).
  { unfold Date.ofComponents.
    destruct (parseInt (substr 0 4 (trim rawValue)));
      destruct (parseInt (substr 4 2 (trim rawValue)));
      destruct (parseInt (substr 6 2 (trim rawValue)));
      destruct (parseInt (substr 8 2 (trim rawValue)));
      destruct (parseInt (substr 10 2 (trim rawValue)));
      destruct (parseInt (substr 12 2 (trim rawValue)));
      try reflexivity; discriminate Hnan. }
  rewrite Hd. reflexivity.
Qed.

Lemma datetime_unreadable_field_gives_NaN_witness :
  processTimeValue (Date.fixedZone 0) "2025-10-18 1:2" "datetime_string"
  = (Some {| numeric := NaN;
             date := Some {| Date.DateValue := NaN |};
             display := Str "NaN-NaN-NaN NaN:NaN:NaN";
             raw := "2025-10-18 1:2" |}, []).
Proof.
  apply datetime_unreadable_field_gives_NaN; reflexivity.
Defined.

Lemma acceptRow_wrong_arity (tz : Date.TimeZone) (header : list string)
    (format line : string) :
  length (splitRow line) <> length header ->
  acceptRow tz header format line = None.
Proof.
  intros Hne. unfold acceptRow.
  by destruct (Nat.eqb_spec (length (splitRow line)) (length header)).
Qed.

(** X15. A data line that has not as many fields as the header changes
    nothing but the warnings, wherever it stands among the lines: the row
    loop leaves the same time points and the same series with and without
    it, and does not throw. *)
Theorem wrong_arity_row_changes_no_data (tz : Date.TimeZone)
    (header sampleNames : list string) (format : string) (i : nat)
    (before after : list string) (line : string) (st : rows) :
  length header = S (length sampleNames) ->
  allInitialised sampleNames (sampleData st) ->
  length (splitRow line) <> length header ->
  exists st1 st2,
    processRows tz header sampleNames format i (before ++ line :: after) st = Normal st1
    /\ processRows tz header sampleNames format i (before ++ after) st = Normal st2
    /\ timePoints st1 = timePoints st2
    /\ processedTimePoints st1 = processedTimePoints st2
    /\ sampleData st1 = sampleData st2.
Proof.
  intros Hhdr Hinit Harity.
  destruct (processRows_spec tz header sampleNames format (before ++ line :: after)
              i st Hhdr Hinit) as (st1 & Hrun1 & Htp1 & Hptp1 & _ & Hlook1).
  destruct (processRows_spec tz header sampleNames format (before ++ after)
              i st Hhdr Hinit) as (st2 & Hrun2 & Htp2 & Hptp2 & _ & Hlook2).
  assert (Hsame : omap (acceptRow tz header format) (before ++ line :: after)
                  = omap (acceptRow tz header format) (before ++ after)).
  { rewrite !omap_app. simpl.
    by rewrite (acceptRow_wrong_arity tz header format line Harity). }
  rewrite Hsame in *.
  exists st1, st2. split; [assumption |]. split; [assumption |].
  split; [congruence |]. split; [congruence |].
  apply map_eq. intros name. by rewrite Hlook1, Hlook2.
Qed.

Lemma wrong_arity_row_changes_no_data_witness :
  exists st1 st2,
    processRows (Date.fixedZone 0) ["t"; "a"] ["a"] "integer" 1
      (["0,1"] ++ "1" :: ["2,3"]) (initialRows ["a"]) = Normal st1
    /\ processRows (Date.fixedZone 0) ["t"; "a"] ["a"] "integer" 1
         (["0,1"] ++ ["2,3"]) (initialRows ["a"]) = Normal st2
    /\ timePoints st1 = timePoints st2
    /\ processedTimePoints st1 = processedTimePoints st2
    /\ sampleData st1 = sampleData st2.
Proof.
  apply wrong_arity_row_changes_no_data.
  - reflexivity.
  - intros name Hin. simpl. rewrite initSampleData_initialised; eauto.
  - vm_compute. lia.
Defined.

(** X16. In a dataset returned by [parseCSV], the series of a sample name
    holds as many slots as the name heads columns, for each time point:
    its length is the number of columns of that name times the length of
    [timePoints]. *)
Theorem series_length_is_columns_times_rows (tz : Date.TimeZone) (csvText : string)
    (ds : Dataset) (w : list warning) (name : string) :
  parseCSV tz csvText = Normal (ds, w) ->
  name ∈ samples ds ->
  exists series,
    ds_sampleData ds !! name = Some series
    /\ length series = occurrences name (samples ds) * length (ds_timePoints ds).
Proof.
  intros Hparse Hin.
  destruct (parseCSV_inv tz csvText ds w Hparse)
    as (_ & Hnames & _ & Htp & _ & Hlen & Hlook).
  rewrite Hnames in *. eexists. split; [by apply Hlook |].
  by rewrite slotsOf_length, Htp, length_map.
Qed.

Lemma series_length_is_columns_times_rows_witness :
  exists ds w series,
    parseCSV (Date.fixedZone 0) fileWithTwin = Normal (ds, w)
    /\ "a" ∈ samples ds
    /\ ds_sampleData ds !! "a" = Some series
    /\ length series = occurrences "a" (samples ds) * length (ds_timePoints ds).
Proof.
  destruct (parseCSV (Date.fixedZone 0) fileWithTwin) as [[ds w] | e] eqn:Hparse;
    [| vm_compute in Hparse; discriminate].
  assert (Hin : "a" ∈ samples ds).
  { pose proof Hparse as H. vm_compute in H. injection H as <- _.
    apply (bool_decide_unpack _). vm_compute. exact I. }
  destruct (series_length_is_columns_times_rows (Date.fixedZone 0) fileWithTwin ds w "a"
              Hparse Hin) as (series & Hlook & Hlen).
  exists ds, w, series. split; [reflexivity |]. repeat (split; [assumption |]).
  assumption.
Defined.

(** X17. The names of a dataset are trimmed: the time column name and
    every sample name are unchanged by [trim]. *)
Theorem dataset_names_are_trimmed (tz : Date.TimeZone) (csvText : string)
    (ds : Dataset) (w : list warning) :
  parseCSV tz csvText = Normal (ds, w) ->
  trim (timeColumnName ds) = timeColumnName ds
  /\ Forall (fun name => trim name = name) (samples ds).
Proof.
  intros Hparse.
  pose proof (splitRow_trimmed (nth 0 (csvLines csvText) "")) as Htrim.
  fold (csvHeader csvText) in Htrim.
  rewrite parseCSV_unfold in Hparse.
  destruct (Nat.ltb (length (csvLines csvText)) 2); [discriminate |].
  destruct (Nat.eqb (length (csvSampleNames csvText)) 0); [discriminate |].
  destruct (detectTimeFormat (csvFirstToken csvText)); [| discriminate].
  simpl in Hparse.
  destruct (processRows _ _ _ _ _ _ _) as [st |]; [| discriminate].
  simpl in Hparse.
  destruct (Nat.eqb (length (timePoints st)) 0); [discriminate |].
  injection Hparse as <- _. simpl. unfold csvSampleNames.
  destruct (csvHeader csvText) as [| h names]; simpl.
  - split; [reflexivity | constructor].
  - inversion Htrim; subst. split; assumption.
Qed.

Lemma dataset_names_are_trimmed_witness :
  exists ds w,
    parseCSV (Date.fixedZone 0) (" time , a ,b " +:+ nl +:+ "0,1,2") = Normal (ds, w)
    /\ trim (timeColumnName ds) = timeColumnName ds
    /\ Forall (fun name => trim name = name) (samples ds).
Proof.
  destruct (parseCSV (Date.fixedZone 0) (" time , a ,b " +:+ nl +:+ "0,1,2"))
    as [[ds w] | e] eqn:Hparse; [| vm_compute in Hparse; discriminate].
  exists ds, w. split; [reflexivity |].
  exact (dataset_names_are_trimmed (Date.fixedZone 0) _ ds w Hparse).
Defined.

(** * The calendar of [Date] *)

Local Open Scope Z_scope.

Lemma DayFromYear_step (y : Z) :
  Date.DayFromYear (y + 1) = Date.DayFromYear y + Date.DaysInYear y.
Proof.
  unfold Date.DayFromYear, Date.DaysInYear, Date.isLeapYear.
  destruct (Z.eqb_spec (y mod 4) 0); destruct (Z.eqb_spec (y mod 100) 0);
    destruct (Z.eqb_spec (y mod 400) 0); simpl; Z.div_mod_to_equations; lia.
Qed.

Lemma DayFromYear_mono (a b : Z) :
  a <= b -> Date.DayFromYear a <= Date.DayFromYear b.
Proof.
  unfold Date.DayFromYear. intros H. Z.div_mod_to_equations. lia.
Qed.

Lemma yearSearch_finds (d y : Z) :
  Date.DayFromYear y <= d < Date.DayFromYear (y + 1) ->
  forall fuel start,
    y <= start -> start - y <= Z.of_nat fuel ->
    Date.yearSearch fuel d start = y.
Proof.
  intros [Hlo Hhi] fuel.
  induction fuel as [| k IH]; intros start Hy Hfuel; simpl.
  - lia.
  - destruct (Z.leb_spec (Date.DayFromYear start) d) as [Hle | Hgt].
    + destruct (Z.eq_dec start y) as [-> | Hne]; [reflexivity |].
      pose proof (DayFromYear_mono (y + 1) start). lia.
    + assert (start <> y) by (intros ->; lia).
      apply IH; lia.
Qed.

Lemma YearFromDay_spec (d y : Z) :
  Date.DayFromYear y <= d < Date.DayFromYear (y + 1) ->
  Date.YearFromDay d = y.
Proof.
  intros Hd. unfold Date.YearFromDay.
  assert (Hb : 1969 + Z.min (d / 365) (d / 366) <= y
               /\ y <= 1971 + Z.max (d / 365) (d / 366)).
  { unfold Date.DayFromYear in Hd. Z.div_mod_to_equations. lia. }
  apply yearSearch_finds; [assumption | lia | lia].
Qed.

Lemma Day_MakeDate (day tod : Z) :
  0 <= tod < Date.msPerDay -> Date.Day (Date.MakeDate day tod) = day.
Proof.
  unfold Date.Day, Date.MakeDate, Date.msPerDay. intros H.
  Z.div_mod_to_equations. lia.
Qed.

Ltac month_cases :=
  repeat match goal with
         | |- context [Date.monthStart ?m ?l] =>
             let v := eval vm_compute in (Date.monthStart m l) in
             change (Date.monthStart m l) with v
         end;
  repeat match goal with
         | |- context [?a <? ?b] => destruct (Z.ltb_spec a b); cbv iota; try lia
         end;
  lia.

Lemma month_window (leap : bool) (mn d : Z) :
  0 <= mn <= 11 ->
  1 <= d <= (if mn =? 1 then (if leap then 29 else 28)
             else if (mn =? 3) || (mn =? 5) || (mn =? 8) || (mn =? 10) then 30
             else 31) ->
  let l := if leap then 1 else 0 in
  let k := Date.monthStart mn l + d - 1 in
  0 <= k < (if leap then 366 else 365)
  /\ (if k <? 31 then 0
      else if k <? 59 + l then 1
      else if k <? 90 + l then 2
      else if k <? 120 + l then 3
      else if k <? 151 + l then 4
      else if k <? 181 + l then 5
      else if k <? 212 + l then 6
      else if k <? 243 + l then 7
      else if k <? 273 + l then 8
      else if k <? 304 + l then 9
      else if k <? 334 + l then 10
      else 11) = mn
  /\ k - Date.monthStart mn l + 1 = d.
Proof.
  intros Hmn Hd l k.
  assert (Hcases : mn = 0 \/ mn = 1 \/ mn = 2 \/ mn = 3 \/ mn = 4 \/ mn = 5 \/ mn = 6
                   \/ mn = 7 \/ mn = 8 \/ mn = 9 \/ mn = 10 \/ mn = 11) by lia.
  destruct leap; subst l k;
    repeat (destruct Hcases as [-> | Hcases]; [simpl in Hd; month_cases |]);
    subst; simpl in Hd; month_cases.
Qed.

(** The fields of a day given by year, month (from 0) and day of month. *)
Lemma calendar_fields (ym mn d tod : Z) :
  0 <= mn <= 11 ->
  1 <= d <= daysInMonth ym mn ->
  0 <= tod < Date.msPerDay ->
  let t := Date.MakeDate
             (Date.DayFromYear ym
              + Date.monthStart mn (if Date.isLeapYear ym then 1 else 0) + d - 1) tod in
  Date.YearFromTime t = ym /\ Date.MonthFromTime t = mn /\ Date.DateFromTime t = d.
Proof.
  intros Hmn Hd Htod t.
  pose proof (DayFromYear_step ym) as Hstep. unfold Date.DaysInYear in Hstep.
  assert (Hday : Date.Day t = Date.DayFromYear ym
                 + Date.monthStart mn (if Date.isLeapYear ym then 1 else 0) + d - 1)
    by (by apply Day_MakeDate).
  destruct (month_window (Date.isLeapYear ym) mn d Hmn Hd) as (Hk & Hmonth & Hdate).
  assert (Hyear : Date.YearFromTime t = ym).
  { unfold Date.YearFromTime. rewrite Hday. apply YearFromDay_spec.
    destruct (Date.isLeapYear ym); lia. }
  unfold Date.DateFromTime, Date.MonthFromTime, Date.DayWithinYear, Date.InLeapYear.
  rewrite Hyear, Hday. split; [reflexivity |].
  replace (Date.DayFromYear ym
           + Date.monthStart mn (if Date.isLeapYear ym then 1 else 0) + d - 1
           - Date.DayFromYear ym)
    with (Date.monthStart mn (if Date.isLeapYear ym then 1 else 0) + d - 1) by lia.
  rewrite Hmonth. split; [reflexivity | exact Hdate].
Qed.

Lemma time_fields (day h mi s : Z) :
  0 <= h < 24 -> 0 <= mi < 60 -> 0 <= s < 60 ->
  0 <= Date.MakeTime h mi s 0 < Date.msPerDay
  /\ Date.HourFromTime (Date.MakeDate day (Date.MakeTime h mi s 0)) = h
  /\ Date.MinFromTime (Date.MakeDate day (Date.MakeTime h mi s 0)) = mi
  /\ Date.SecFromTime (Date.MakeDate day (Date.MakeTime h mi s 0)) = s.
Proof.
  unfold Date.HourFromTime, Date.MinFromTime, Date.SecFromTime, Date.MakeDate,
    Date.MakeTime, Date.msPerDay, Date.msPerHour, Date.msPerMinute, Date.msPerSecond.
  intros Hh Hmi Hs. repeat split; Z.div_mod_to_equations; lia.
Qed.

(** X18. In a zone at a constant offset from UTC, a datetime value whose
    fields are in range gives the date with its day, hours, minutes and
    seconds as written and its month field taken as counted from 0: the
    month written MM is month MM of [getMonth], the calendar month after
    it, and 12 is January of the next year. [formatDateTime] prints
    [getMonth] as it is, so months 01 to 11 are displayed as written. *)
Theorem datetime_fields_month_from_zero (offset : Z) (token : string)
    (y m d h mi s : Z) :
  Z.abs offset <= Date.msPerDay ->
  String.length token = 14%nat ->
  datetimeFields token = [Num y; Num m; Num d; Num h; Num mi; Num s] ->
  100 <= y <= 9999 ->
  0 <= m <= 99 ->
  1 <= d <= daysInMonth (y + m / 12) (m mod 12) ->
  0 <= h < 24 /\ 0 <= mi < 60 /\ 0 <= s < 60 ->
  exists date,
    parseDateTimeString (Date.fixedZone offset) token = Normal date
    /\ Date.getFullYear (Date.fixedZone offset) date = Num (y + m / 12)
    /\ Date.getMonth (Date.fixedZone offset) date = Num (m mod 12)
    /\ Date.getDate (Date.fixedZone offset) date = Num d
    /\ Date.getHours (Date.fixedZone offset) date = Num h
    /\ Date.getMinutes (Date.fixedZone offset) date = Num mi
    /\ Date.getSeconds (Date.fixedZone offset) date = Num s
    /\ formatDateTime (Date.fixedZone offset) date false
       = toString (Num (y + m / 12)) +:+ "-" +:+ pad2 (Num (m mod 12)) +:+ "-"
         +:+ pad2 (Num d) +:+ " " +:+ pad2 (Num h) +:+ ":" +:+ pad2 (Num mi)
         +:+ ":" +:+ pad2 (Num s).
Proof.
  intros Hoff Hlen Hfields Hy Hm Hd (Hh & Hmi & Hs).
  unfold datetimeFields in Hfields.
  injection Hfields as Hfy Hfm Hfd Hfh Hfmi Hfs.
  unfold parseDateTimeString. rewrite Hlen. simpl negb. cbv iota.
  rewrite Hfy, Hfm, Hfd, Hfh, Hfmi, Hfs.
  eexists. split; [reflexivity |].
  assert (Hmn : 0 <= m mod 12 <= 11) by (Z.div_mod_to_equations; lia).
  destruct (time_fields (Date.MakeDay y m d) h mi s Hh Hmi Hs)
    as (Htod & Hhour & Hmin & Hsec).
  destruct (calendar_fields (y + m / 12) (m mod 12) d (Date.MakeTime h mi s 0)
              Hmn Hd Htod) as (Hyear & Hmonth & Hdate).
  fold (Date.MakeDay y m d) in Hyear, Hmonth, Hdate.
  set (t := Date.MakeDate (Date.MakeDay y m d) (Date.MakeTime h mi s 0)) in *.
  assert (Hrange : Z.abs (t - offset) <= 8640000000000000).
  { destruct (month_window (Date.isLeapYear (y + m / 12)) (m mod 12) d Hmn Hd)
      as (Hk & _).
    assert (Hdfy : -700000 <= Date.DayFromYear (y + m / 12) <= 3000000).
    { unfold Date.DayFromYear. Z.div_mod_to_equations. lia. }
    unfold t, Date.MakeDate, Date.MakeDay, Date.msPerDay in *.
    destruct (Date.isLeapYear (y + m / 12)); lia. }
  assert (Hvalue : Date.ofComponents (Date.fixedZone offset)
                     (Num y) (Num m) (Num d) (Num h) (Num mi) (Num s)
                   = {| Date.DateValue := Num (t - offset) |}).
  { unfold Date.ofComponents, Date.UTC, Date.TimeClip. simpl Date.LocalTZA.
    replace ((0 <=? y) && (y <=? 99)) with false
      by (symmetry; apply andb_false_iff; right; apply Z.leb_gt; lia).
    fold t. destruct (Z.gtb_spec (Z.abs (t - offset)) 8640000000000000);
      [lia | reflexivity]. }
  rewrite Hvalue.
  assert (Hget : forall f, Date.localField (Date.fixedZone offset) f
                             {| Date.DateValue := Num (t - offset) |} = Num (f t)).
  { intros f. unfold Date.localField, Date.LocalTime. simpl. do 2 f_equal. lia. }
  unfold formatDateTime, Date.getFullYear, Date.getMonth, Date.getDate, Date.getHours,
    Date.getMinutes, Date.getSeconds.
  rewrite !Hget, Hyear, Hmonth, Hdate, Hhour, Hmin, Hsec.
  repeat split; reflexivity.
Qed.

Lemma datetime_fields_month_from_zero_witness :
  exists date,
    parseDateTimeString (Date.fixedZone 3600000) "20251218134550" = Normal date
    /\ Date.getFullYear (Date.fixedZone 3600000) date = Num (2025 + 12 / 12)
    /\ Date.getMonth (Date.fixedZone 3600000) date = Num (12 mod 12)
    /\ Date.getDate (Date.fixedZone 3600000) date = Num 18
    /\ Date.getHours (Date.fixedZone 3600000) date = Num 13
    /\ Date.getMinutes (Date.fixedZone 3600000) date = Num 45
    /\ Date.getSeconds (Date.fixedZone 3600000) date = Num 50
    /\ formatDateTime (Date.fixedZone 3600000) date false
       = toString (Num (2025 + 12 / 12)) +:+ "-" +:+ pad2 (Num (12 mod 12)) +:+ "-"
         +:+ pad2 (Num 18) +:+ " " +:+ pad2 (Num 13) +:+ ":" +:+ pad2 (Num 45)
         +:+ ":" +:+ pad2 (Num 50).
Proof.
  apply (datetime_fields_month_from_zero 3600000 "20251218134550" 2025 12 18 13 45 50).
  - unfold Date.msPerDay. lia.
  - reflexivity.
  - reflexivity.
  - lia.
  - lia.
  - vm_compute. split; discriminate.
  - lia.
Defined.

(** * Time labels and colours *)

Lemma length_append (a b : string) :
  String.length (a +:+ b) = (String.length a + String.length b)%nat.
Proof. induction a as [| c a IH]; simpl; [reflexivity | by rewrite IH]. Qed.

Lemma pad2_length (z : Z) :
  0 <= z < 100 -> String.length (pad2 (Num z)) = 2%nat.
Proof.
  intros Hz.
  assert (Hall : forallb (fun n => Nat.eqb (String.length (pad2 (Num (Z.of_nat n)))) 2)
                   (seq 0 100) = true) by (vm_compute; reflexivity).
  rewrite forallb_forall in Hall.
  specialize (Hall (Z.to_nat z)). rewrite Z2Nat.id in Hall by lia.
  apply Nat.eqb_eq, Hall, in_seq. lia.
Qed.

Lemma pad3_length (z : Z) :
  0 <= z < 1000 -> String.length (pad3 (Num z)) = 3%nat.
Proof.
  intros Hz.
  assert (Hall : forallb (fun n => Nat.eqb (String.length (pad3 (Num (Z.of_nat n)))) 3)
                   (seq 0 1000) = true) by (vm_compute; reflexivity).
  rewrite forallb_forall in Hall.
  specialize (Hall (Z.to_nat z)). rewrite Z2Nat.id in Hall by lia.
  apply Nat.eqb_eq, Hall, in_seq. lia.
Qed.

(** X19. For a valid date, in any time zone, [formatShortDateTime] gives
    eight characters, two for each of hours, minutes and seconds with
    colons between, and twelve with the milliseconds; for an invalid
    date it gives "NaN:NaN:NaN". *)
Theorem formatShortDateTime_shape (tz : Date.TimeZone) (date : Date.Date) :
  (forall t, Date.DateValue date = Num t ->
     String.length (formatShortDateTime tz date false) = 8%nat
     /\ String.length (formatShortDateTime tz date true) = 12%nat
     /\ String.get 2 (formatShortDateTime tz date false) = Some ":"%char
     /\ String.get 5 (formatShortDateTime tz date false) = Some ":"%char)
  /\ (Date.DateValue date = NaN ->
      formatShortDateTime tz date false = "NaN:NaN:NaN").
Proof.
  split.
  - intros t Ht.
    unfold formatShortDateTime, Date.getHours, Date.getMinutes, Date.getSeconds,
      Date.getMilliseconds, Date.localField. rewrite Ht.
    set (u := Date.LocalTime tz t).
    assert (Hh : 0 <= Date.HourFromTime u < 100)
      by (unfold Date.HourFromTime; Z.div_mod_to_equations; lia).
    assert (Hm : 0 <= Date.MinFromTime u < 100)
      by (unfold Date.MinFromTime; Z.div_mod_to_equations; lia).
    assert (Hs : 0 <= Date.SecFromTime u < 100)
      by (unfold Date.SecFromTime; Z.div_mod_to_equations; lia).
    assert (Hms : 0 <= Date.msFromTime u < 1000)
      by (unfold Date.msFromTime, Date.msPerSecond; Z.div_mod_to_equations; lia).
    pose proof (pad2_length _ Hh) as Lh. pose proof (pad2_length _ Hm) as Lm.
    pose proof (pad2_length _ Hs) as Ls. pose proof (pad3_length _ Hms) as Lms.
    destruct (pad2 (Num (Date.HourFromTime u))) as [| h1 [| h2 [| ? ?]]];
      try discriminate Lh.
    destruct (pad2 (Num (Date.MinFromTime u))) as [| m1 [| m2 [| ? ?]]];
      try discriminate Lm.
    rewrite !length_append, Ls, Lms. repeat split; reflexivity.
  - intros Hnan.
    unfold formatShortDateTime, Date.getHours, Date.getMinutes, Date.getSeconds,
      Date.localField. rewrite Hnan. reflexivity.
Qed.

Lemma formatShortDateTime_shape_witness :
  String.length (formatShortDateTime (Date.fixedZone 3600000)
                   (Date.ofValue (Num 1760784150234)) false) = 8%nat
  /\ formatShortDateTime (Date.fixedZone 3600000) (Date.ofValue (Num 1760784150234)) true
     = "11:42:30.234".
Proof.
  split; [| reflexivity].
  apply (proj1 (formatShortDateTime_shape (Date.fixedZone 3600000)
                  (Date.ofValue (Num 1760784150234))) 1760784150234).
  reflexivity.
Defined.

(** X20. Two samples get the same colour exactly when their indices are
    congruent modulo 10: the ten colours of the palette differ and are
    reused in order. *)
Theorem same_colour_iff_congruent (alpha : string) (i j : nat) :
  getColorForSample i alpha = getColorForSample j alpha
  <-> (i mod 10 = j mod 10)%nat.
Proof.
  unfold getColorForSample.
  change (length (colors alpha)) with 10%nat.
  pose proof (Nat.mod_upper_bound i 10) as Hi.
  pose proof (Nat.mod_upper_bound j 10) as Hj.
  generalize dependent (i mod 10)%nat. intros a Ha.
  generalize dependent (j mod 10)%nat. intros b Hb.
  do 10 (destruct a as [| a]; [
    do 10 (destruct b as [| b];
           [split; intros H; first [reflexivity | discriminate H] |]); lia |]).
  lia.
Qed.

Lemma same_colour_iff_congruent_witness :
  (3 mod 10 = 13 mod 10)%nat
  /\ getColorForSample 3 "0.1" = getColorForSample 13 "0.1".
Proof.
  split; [reflexivity |].
  apply (proj2 (same_colour_iff_congruent "0.1" 3 13)). reflexivity.
Defined.

(** * The chart and the visible samples *)

Local Open Scope nat_scope.

Lemma chartPoints_spec (ds : Dataset) (name : string) (series : list (option float)) :
  ds_sampleData ds !! name = Some series ->
  forall times i,
    exists points,
      chartPoints ds name i times = Normal points
      /\ map Chart.x points = times
      /\ forall k pt, points !! k = Some pt -> Chart.y pt = series !! (i + k).
Proof.
  intros Hseries. induction times as [| time rest IH]; intros i; simpl.
  - exists []. split; [reflexivity |]. split; [reflexivity |].
    intros k pt Hk. by rewrite lookup_nil in Hk.
  - rewrite Hseries. destruct (IH (S i)) as (points & -> & Hx & Hy). simpl.
    eexists. split; [reflexivity |]. split; [simpl; by rewrite Hx |].
    intros [| k] pt Hk; simpl in Hk.
    + injection Hk as <-. simpl. by rewrite Nat.add_0_r.
    + rewrite (Hy k pt Hk). f_equal. lia.
Qed.

Lemma chartDatasets_spec (ds : Dataset) (visible : gset string) (names : list string) :
  (forall name, name ∈ names ->
     exists series, ds_sampleData ds !! name = Some series
                    /\ length (ds_timePoints ds) <= length series) ->
  forall index,
    exists datasets,
      chartDatasets ds visible index names = Normal datasets
      /\ map Chart.label datasets = names
      /\ Forall (fun s => Chart.hidden s = negb (bool_decide (Chart.label s ∈ visible))
                          /\ seriesPlotted ds s) datasets
      /\ forall k s, datasets !! k = Some s ->
           Chart.borderColor s = getColorForSample (index + k) "1"
           /\ Chart.backgroundColor s = getColorForSample (index + k) "0.1".
Proof.
  induction names as [| name rest IH]; intros Hall index; simpl.
  - exists []. split; [reflexivity |]. split; [reflexivity |]. split; [constructor |].
    intros k s Hk. by rewrite lookup_nil in Hk.
  - destruct (Hall name) as (series & Hseries & Hlen); [by left |].
    destruct (chartPoints_spec ds name series Hseries (ds_timePoints ds) 0)
      as (points & -> & Hx & Hy).
    destruct (IH (fun n Hn => Hall n (list_elem_of_further _ _ _ Hn)) (S index))
      as (others & -> & Hlabels & Hothers & Hcolors).
    simpl. eexists. split; [reflexivity |]. split; [simpl; by rewrite Hlabels |].
    split.
    + constructor; [| exact Hothers]. simpl. split; [reflexivity |].
      split; [exact Hx |]. exists series. split; [exact Hseries |].
      intros k pt Hk. rewrite (Hy k pt Hk). simpl. split; [reflexivity |].
      apply lookup_lt_is_Some_2.
      assert (k < length points) by (apply lookup_lt_is_Some_1; eauto).
      rewrite <- Hx, length_map in Hlen. lia.
    + intros [| k] s Hk; simpl in Hk.
      * injection Hk as <-. simpl. by rewrite Nat.add_0_r.
      * destruct (Hcolors k s Hk) as [-> ->].
        by replace (S index + k) with (index + S k) by lia.
Qed.

Lemma parsed_series_long_enough (tz : Date.TimeZone) (csvText : string)
    (ds : Dataset) (w : list warning) :
  parseCSV tz csvText = Normal (ds, w) ->
  forall name, name ∈ samples ds ->
    exists series, ds_sampleData ds !! name = Some series
                   /\ length (ds_timePoints ds) <= length series.
Proof.
  intros Hparse name Hin.
  destruct (parseCSV_inv tz csvText ds w Hparse)
    as (_ & Hnames & _ & Htp & _ & Hlen & Hlook).
  rewrite Hnames in Hin. eexists. split; [by apply Hlook |].
  rewrite slotsOf_length, Htp, length_map by assumption.
  apply list_elem_of_lookup in Hin as [j Hj].
  pose proof (occurrences_lookup name _ j Hj). nia.
Qed.

Lemma renderDashboard_parsed (tz : Date.TimeZone) (csvText : string)
    (ds : Dataset) (w : list warning) (st : Dashboard) :
  parseCSV tz csvText = Normal (ds, w) ->
  parsedData st = Some ds ->
  exists c,
    renderDashboard st = (setChart c (setVisible (list_to_set (samples ds)) st), None)
    /\ map Chart.label (Chart.datasets c) = samples ds
    /\ Chart.xAxisTitle c = getXAxisTitle (Some ds)
    /\ Forall (fun s => Chart.hidden s = false /\ seriesPlotted ds s) (Chart.datasets c)
    /\ forall k s, Chart.datasets c !! k = Some s ->
         Chart.borderColor s = getColorForSample k "1"
         /\ Chart.backgroundColor s = getColorForSample k "0.1".
Proof.
  intros Hparse Hdata. unfold renderDashboard, renderChart. rewrite Hdata. simpl.
  rewrite Hdata.
  destruct (chartDatasets_spec ds (list_to_set (samples ds)) (samples ds)
              (parsed_series_long_enough tz csvText ds w Hparse) 0)
    as (datasets & -> & Hlabels & Hall & Hcolors).
  eexists. split; [reflexivity |]. simpl. split; [exact Hlabels |].
  split; [reflexivity |]. split; [| exact Hcolors].
  assert (Hin : Forall (fun s => Chart.label s ∈ samples ds) datasets).
  { rewrite <- Hlabels. clear. induction datasets as [| s l IH]; constructor.
    - by left.
    - eapply Forall_impl; [exact IH |]. intros x Hx. by right. }
  clear Hlabels Hcolors.
  induction Hall as [| s l [Hh Hp] _ IH]; constructor.
  - inversion Hin; subst. split; [| exact Hp].
    rewrite Hh, bool_decide_eq_true_2; [reflexivity |]. by apply elem_of_list_to_set.
  - inversion Hin; subst. by apply IH.
Qed.

(** X21. Rendering a dataset that [parseCSV] returned never throws. All
    samples become visible, and the chart gets one dataset per sample
    column, in header order and none hidden; each has one point per time
    point, its [x] the time point and its [y] the slot of the series at
    that index, never [undefined]; colours follow the column index. *)
Theorem render_parsed_dataset (tz : Date.TimeZone) (csvText : string)
    (ds : Dataset) (w : list warning) (st : Dashboard) :
  parseCSV tz csvText = Normal (ds, w) ->
  parsedData st = Some ds ->
  exists st' c,
    renderDashboard st = (st', None)
    /\ chart st' = Some c
    /\ visibleSamples st' = list_to_set (samples ds)
    /\ map Chart.label (Chart.datasets c) = samples ds
    /\ Forall (fun s => Chart.hidden s = false /\ seriesPlotted ds s) (Chart.datasets c)
    /\ forall k s, Chart.datasets c !! k = Some s ->
         Chart.borderColor s = getColorForSample k "1"
         /\ Chart.backgroundColor s = getColorForSample k "0.1".
Proof.
  intros Hparse Hdata.
  destruct (renderDashboard_parsed tz csvText ds w st Hparse Hdata)
    as (c & Hrun & Hlabels & _ & Hall & Hcolors).
  eexists _, c. split; [exact Hrun |]. simpl. auto.
Qed.

Lemma render_parsed_dataset_witness :
  exists ds w st' c,
    parseCSV (Date.fixedZone 0) fileWithGaps = Normal (ds, w)
    /\ renderDashboard (setParsedData ds newDashboard) = (st', None)
    /\ chart st' = Some c
    /\ visibleSamples st' = list_to_set (samples ds)
    /\ map Chart.label (Chart.datasets c) = samples ds
    /\ Forall (fun s => Chart.hidden s = false /\ seriesPlotted ds s) (Chart.datasets c)
    /\ forall k s, Chart.datasets c !! k = Some s ->
         Chart.borderColor s = getColorForSample k "1"
         /\ Chart.backgroundColor s = getColorForSample k "0.1".
Proof.
  destruct (parseCSV (Date.fixedZone 0) fileWithGaps) as [[ds w] | e] eqn:Hparse;
    [| vm_compute in Hparse; discriminate].
  destruct (render_parsed_dataset (Date.fixedZone 0) fileWithGaps ds w
              (setParsedData ds newDashboard) Hparse eq_refl) as (st' & c & H).
  exists ds, w, st', c. split; [reflexivity | exact H].
Defined.

Lemma setHidden_same (s : Chart.Series) : Chart.setHidden (Chart.hidden s) s = s.
Proof. by destruct s. Qed.

Lemma updateHidden_spec (names : list string) (visible : gset string) :
  forall datasets index,
    (forall k s, datasets !! k = Some s -> names !! (index + k) = Some (Chart.label s)) ->
    updateHidden names visible index datasets
    = map (fun s => Chart.setHidden (negb (bool_decide (Chart.label s ∈ visible))) s)
        datasets.
Proof.
  induction datasets as [| s rest IH]; intros index Hnames; simpl; [reflexivity |].
  rewrite (IH (S index)).
  - pose proof (Hnames 0 s eq_refl) as H0. rewrite Nat.add_0_r in H0.
    rewrite H0. reflexivity.
  - intros k s' Hk. replace (S index + k) with (index + S k) by lia.
    by apply Hnames.
Qed.

Lemma toggledSet_elem (name n : string) (visible : gset string) :
  bool_decide (n ∈ toggledSet name visible)
  = xorb (bool_decide (n ∈ visible)) (String.eqb name n).
Proof.
  unfold toggledSet.
  destruct (String.eqb_spec name n) as [-> | Hne];
    destruct (bool_decide_reflect (n ∈ visible)) as [Hin | Hnin]; simpl.
  - apply bool_decide_eq_false_2. rewrite elem_of_difference, elem_of_singleton.
    intros [_ Hn]. by apply Hn.
  - apply bool_decide_eq_true_2. rewrite elem_of_union, elem_of_singleton. by right.
  - apply bool_decide_eq_true_2. destruct (bool_decide (name ∈ visible)).
    + rewrite elem_of_difference, elem_of_singleton. split; [assumption | congruence].
    + rewrite elem_of_union. by left.
  - apply bool_decide_eq_false_2. destruct (bool_decide (name ∈ visible)).
    + rewrite elem_of_difference. intros [Hn _]. contradiction.
    + rewrite elem_of_union, elem_of_singleton. intros [Hn | Hn]; [contradiction | congruence].
Qed.

Lemma toggledSet_twice (name : string) (visible : gset string) :
  toggledSet name (toggledSet name visible) = visible.
Proof.
  apply set_eq. intros n.
  pose proof (toggledSet_elem name n (toggledSet name visible)) as H2.
  rewrite (toggledSet_elem name n visible), xorb_assoc, xorb_nilpotent, xorb_false_r in H2.
  revert H2.
  destruct (bool_decide_reflect (n ∈ toggledSet name (toggledSet name visible)));
    destruct (bool_decide_reflect (n ∈ visible)); intros H2;
    first [discriminate H2 | tauto].
Qed.

(** One toggle, on a chart in step with the data. *)
Lemma toggleSample_inSync (name : string) (st : Dashboard) (ds : Dataset) (c : Chart.t) :
  parsedData st = Some ds ->
  chart st = Some c ->
  map Chart.label (Chart.datasets c) = samples ds ->
  toggleSample name st
  = ({| parsedData := Some ds;
        chart := Some {| Chart.datasets :=
                           map (fun s => Chart.setHidden
                                  (negb (bool_decide
                                     (Chart.label s ∈ toggledSet name (visibleSamples st)))) s)
                             (Chart.datasets c);
                         Chart.xAxisTitle := Chart.xAxisTitle c |};
        visibleSamples := toggledSet name (visibleSamples st);
        message := message st |}, None).
Proof.
  intros Hdata Hchart Hlabels. unfold toggleSample. fold (toggledSet name (visibleSamples st)).
  unfold updateChart, setVisible. cbn [parsedData chart visibleSamples message].
  rewrite Hchart, Hdata.
  assert (Hnames : forall k s, Chart.datasets c !! k = Some s ->
                     samples ds !! (0 + k) = Some (Chart.label s)).
  { intros k s Hk. simpl. by rewrite <- Hlabels, list_lookup_fmap, Hk. }
  pose proof (updateHidden_spec (samples ds) (toggledSet name (visibleSamples st))
                (Chart.datasets c) 0 Hnames) as Hupd.
  destruct (Chart.datasets c) as [| s rest] eqn:Hds.
  - destruct c; simpl in *. by subst.
  - rewrite Hupd. unfold setChart.
    cbn [parsedData chart visibleSamples message]. reflexivity.
Qed.

Lemma map_setHidden_label (f : Chart.Series -> bool) (l : list Chart.Series) :
  map Chart.label (map (fun s => Chart.setHidden (f s) s) l) = map Chart.label l.
Proof. induction l as [| s l IH]; simpl; [reflexivity | by rewrite IH]. Qed.

Lemma toggleSample_preserves (name : string) (st : Dashboard) :
  chartInSync st ->
  exists st',
    toggleSample name st = (st', None)
    /\ chartInSync st'
    /\ parsedData st' = parsedData st
    /\ message st' = message st
    /\ visibleSamples st' = toggledSet name (visibleSamples st).
Proof.
  intros (ds & c & Hdata & Hchart & Hlabels & Hhidden).
  rewrite (toggleSample_inSync name st ds c Hdata Hchart Hlabels).
  eexists. split; [reflexivity |]. simpl. split; [| by rewrite Hdata].
  eexists ds, _. simpl. split; [reflexivity |]. split; [reflexivity |].
  cbn [Chart.datasets].
  split; [by rewrite map_setHidden_label |].
  clear. induction (Chart.datasets c) as [| s l IH]; simpl; constructor;
    [reflexivity | exact IH].
Qed.

(** X22. On a chart in step with the data, [toggleSample] does not throw
    and flips the [hidden] flag of exactly the datasets labelled with the
    name, all of them when the name heads several columns; labels, points
    and colours stay, and the chart remains in step. A name that labels
    no dataset only enters or leaves the visible set. *)
Theorem toggle_flips_its_datasets (name : string) (st : Dashboard) :
  chartInSync st ->
  exists st' c c',
    toggleSample name st = (st', None)
    /\ chartInSync st'
    /\ chart st = Some c /\ chart st' = Some c'
    /\ Chart.datasets c'
       = map (fun s => if String.eqb (Chart.label s) name
                       then Chart.setHidden (negb (Chart.hidden s)) s else s)
           (Chart.datasets c).
Proof.
  intros Hsync.
  destruct (toggleSample_preserves name st Hsync) as (st' & Hrun & Hsync' & _).
  destruct Hsync as (ds & c & Hdata & Hchart & Hlabels & Hhidden).
  pose proof Hrun as Hform.
  rewrite (toggleSample_inSync name st ds c Hdata Hchart Hlabels) in Hform.
  injection Hform as <-.
  eexists _, c, _. split; [exact Hrun |]. split; [exact Hsync' |].
  split; [exact Hchart |]. split; [reflexivity |]. simpl.
  clear -Hhidden. induction Hhidden as [| s l Hs _ IH]; simpl; [reflexivity |].
  rewrite IH. f_equal.
  rewrite toggledSet_elem, (String.eqb_sym name (Chart.label s)).
  destruct (String.eqb (Chart.label s) name); simpl.
  - f_equal. rewrite Hs. by destruct (bool_decide _).
  - rewrite xorb_false_r, <- Hs. apply setHidden_same.
Qed.

Lemma render_inSync (tz : Date.TimeZone) (csvText : string)
    (ds : Dataset) (w : list warning) (st : Dashboard) :
  parseCSV tz csvText = Normal (ds, w) ->
  parsedData st = Some ds ->
  snd (renderDashboard st) = None /\ chartInSync (fst (renderDashboard st)).
Proof.
  intros Hparse Hdata.
  destruct (renderDashboard_parsed tz csvText ds w st Hparse Hdata)
    as (c & -> & Hlabels & _ & Hall & _).
  split; [reflexivity |]. exists ds, c. simpl.
  split; [assumption |]. split; [reflexivity |]. split; [assumption |].
  assert (Hin : Forall (fun s => Chart.label s ∈ samples ds) (Chart.datasets c)).
  { rewrite <- Hlabels. clear. induction (Chart.datasets c) as [| s l IH]; constructor.
    - by left.
    - eapply Forall_impl; [exact IH |]. intros x Hx. by right. }
  clear Hlabels. revert Hall Hin. generalize (Chart.datasets c). intros l Hall Hin.
  induction Hall as [| s l [Hh _] _ IH]; constructor.
  - inversion Hin; subst. rewrite Hh, bool_decide_eq_true_2; [reflexivity |].
    by apply elem_of_list_to_set.
  - inversion Hin; subst. by apply IH.
Qed.

Lemma toggle_flips_its_datasets_witness :
  exists ds w st st' c c',
    parseCSV (Date.fixedZone 0) fileWithTwin = Normal (ds, w)
    /\ st = fst (renderDashboard (setParsedData ds newDashboard))
    /\ chartInSync st
    /\ toggleSample "a" st = (st', None)
    /\ chartInSync st'
    /\ chart st = Some c /\ chart st' = Some c'
    /\ Chart.datasets c'
       = map (fun s => if String.eqb (Chart.label s) "a"
                       then Chart.setHidden (negb (Chart.hidden s)) s else s)
           (Chart.datasets c).
Proof.
  destruct (parseCSV (Date.fixedZone 0) fileWithTwin) as [[ds w] | e] eqn:Hparse;
    [| vm_compute in Hparse; discriminate].
  destruct (render_inSync (Date.fixedZone 0) fileWithTwin ds w
              (setParsedData ds newDashboard) Hparse eq_refl) as [_ Hsync].
  destruct (toggle_flips_its_datasets "a" _ Hsync) as (st' & c & c' & H).
  exists ds, w, (fst (renderDashboard (setParsedData ds newDashboard))), st', c, c'.
  split; [reflexivity |]. split; [reflexivity |].
  split; [exact Hsync | exact H].
Defined.

(** X23. Toggling the same sample twice restores the state: the visible
    set, the flags of the chart and everything else are as before. *)
Theorem toggle_twice_restores (name : string) (st : Dashboard) :
  chartInSync st ->
  exists st1,
    toggleSample name st = (st1, None)
    /\ toggleSample name st1 = (st, None).
Proof.
  intros Hsync.
  destruct Hsync as (ds & c & Hdata & Hchart & Hlabels & Hhidden).
  rewrite (toggleSample_inSync name st ds c Hdata Hchart Hlabels).
  eexists. split; [reflexivity |].
  match goal with
  | |- toggleSample _ ?s = _ =>
      rewrite (toggleSample_inSync name s ds _ eq_refl eq_refl)
  end.
  2: { cbn [Chart.datasets]. by rewrite map_setHidden_label. }
  cbn [visibleSamples message Chart.datasets Chart.xAxisTitle].
  rewrite toggledSet_twice. f_equal.
  assert (Hmaps : map (fun s => Chart.setHidden
                          (negb (bool_decide (Chart.label s ∈ visibleSamples st))) s)
                    (map (fun s => Chart.setHidden
                            (negb (bool_decide
                               (Chart.label s ∈ toggledSet name (visibleSamples st)))) s)
                       (Chart.datasets c))
                  = Chart.datasets c).
  { clear -Hhidden. induction Hhidden as [| s l Hs _ IH]; simpl; [reflexivity |].
    rewrite IH. f_equal. rewrite <- Hs. by destruct s. }
  rewrite Hmaps. destruct st, c. simpl in *. by subst.
Qed.

Lemma toggle_twice_restores_witness :
  exists ds w st st1,
    parseCSV (Date.fixedZone 0) fileWithGaps = Normal (ds, w)
    /\ st = fst (renderDashboard (setParsedData ds newDashboard))
    /\ chartInSync st
    /\ toggleSample "b" st = (st1, None)
    /\ toggleSample "b" st1 = (st, None).
Proof.
  destruct (parseCSV (Date.fixedZone 0) fileWithGaps) as [[ds w] | e] eqn:Hparse;
    [| vm_compute in Hparse; discriminate].
  destruct (render_inSync (Date.fixedZone 0) fileWithGaps ds w
              (setParsedData ds newDashboard) Hparse eq_refl) as [_ Hsync].
  destruct (toggle_twice_restores "b" _ Hsync) as (st1 & H).
  exists ds, w, (fst (renderDashboard (setParsedData ds newDashboard))), st1.
  split; [reflexivity |]. split; [reflexivity |].
  split; [exact Hsync | exact H].
Defined.

Lemma odd_occurrences_cons (n name : string) (names : list string) :
  Nat.odd (occurrences n (name :: names))
  = xorb (String.eqb name n) (Nat.odd (occurrences n names)).
Proof.
  simpl. destruct (String.eqb name n); simpl; [| reflexivity].
  rewrite Nat.odd_succ, <- Nat.negb_odd. reflexivity.
Qed.

(** X24. After any series of toggles on a chart in step with the data,
    none throws, the chart is still in step, and a sample has changed
    side (visible or not) exactly when it was toggled an odd number of
    times. *)
Theorem toggles_count_by_parity (names : list string) (st : Dashboard) :
  chartInSync st ->
  exists st',
    toggleAll names st = (st', None)
    /\ chartInSync st'
    /\ parsedData st' = parsedData st
    /\ forall n,
         bool_decide (n ∈ visibleSamples st')
         = xorb (bool_decide (n ∈ visibleSamples st)) (Nat.odd (occurrences n names)).
Proof.
  revert st. induction names as [| name rest IH]; intros st Hsync; simpl toggleAll.
  - exists st. repeat (split; [first [reflexivity | assumption] |]).
    intros n. simpl. by rewrite xorb_false_r.
  - destruct (toggleSample_preserves name st Hsync)
      as (st1 & -> & Hsync1 & Hdata1 & _ & Hvis1).
    destruct (IH st1 Hsync1) as (st' & Hrun & Hsync' & Hdata' & Hvis').
    exists st'. split; [exact Hrun |]. split; [exact Hsync' |].
    split; [congruence |].
    intros n. rewrite Hvis', Hvis1, toggledSet_elem, odd_occurrences_cons.
    by rewrite xorb_assoc.
Qed.

Lemma toggles_count_by_parity_witness :
  exists ds w st st',
    parseCSV (Date.fixedZone 0) fileWithGaps = Normal (ds, w)
    /\ st = fst (renderDashboard (setParsedData ds newDashboard))
    /\ chartInSync st
    /\ toggleAll ["a"; "b"; "a"] st = (st', None)
    /\ chartInSync st'
    /\ parsedData st' = parsedData st
    /\ forall n,
         bool_decide (n ∈ visibleSamples st')
         = xorb (bool_decide (n ∈ visibleSamples st))
             (Nat.odd (occurrences n ["a"; "b"; "a"])).
Proof.
  destruct (parseCSV (Date.fixedZone 0) fileWithGaps) as [[ds w] | e] eqn:Hparse;
    [| vm_compute in Hparse; discriminate].
  destruct (render_inSync (Date.fixedZone 0) fileWithGaps ds w
              (setParsedData ds newDashboard) Hparse eq_refl) as [_ Hsync].
  destruct (toggles_count_by_parity ["a"; "b"; "a"] _ Hsync) as (st' & H).
  exists ds, w, (fst (renderDashboard (setParsedData ds newDashboard))), st'.
  split; [reflexivity |]. split; [reflexivity |].
  split; [exact Hsync | exact H].
Defined.

(** * Uploads *)

Lemma parsed_has_samples (tz : Date.TimeZone) (csvText : string)
    (ds : Dataset) (w : list warning) :
  parseCSV tz csvText = Normal (ds, w) -> Nat.ltb 0 (length (samples ds)) = true.
Proof.
  intros Hparse.
  destruct (parseCSV_inv tz csvText ds w Hparse) as (_ & Hnames & _).
  rewrite parseCSV_unfold in Hparse.
  destruct (Nat.ltb (length (csvLines csvText)) 2); [discriminate |].
  destruct (Nat.eqb_spec (length (csvSampleNames csvText)) 0); [discriminate |].
  rewrite Hnames. apply Nat.ltb_lt. lia.
Qed.

Lemma handleFileUpload_parsed (tz : Date.TimeZone) (csvText : string)
    (ds : Dataset) (w : list warning) (st : Dashboard) :
  parseCSV tz csvText = Normal (ds, w) ->
  exists c,
    handleFileUpload tz (Normal csvText) st
    = {| parsedData := Some ds; chart := Some c;
         visibleSamples := list_to_set (samples ds);
         message := Some (successMessage ds, "success") |}
    /\ handleFileUpload tz (Normal csvText) st
       = fst (renderDashboard
                (showMessage (successMessage ds) "success"
                   (setParsedData ds (showMessage "Loading CSV file..." "info" st))))
    /\ map Chart.label (Chart.datasets c) = samples ds
    /\ Forall (fun s => Chart.hidden s = false /\ seriesPlotted ds s) (Chart.datasets c).
Proof.
  intros Hparse. unfold handleFileUpload. rewrite Hparse.
  rewrite (parsed_has_samples tz csvText ds w Hparse).
  fold (successMessage ds).
  set (st3 := showMessage (successMessage ds) "success"
                (setParsedData ds (showMessage "Loading CSV file..." "info" st))).
  destruct (renderDashboard_parsed tz csvText ds w st3 Hparse eq_refl)
    as (c & Hrun & Hlabels & _ & Hall & _).
  rewrite Hrun. exists c. repeat split; assumption.
Qed.

(** X25. A successful upload replaces the data, makes every sample visible
    again whatever was hidden before, shows the chart of the new data with
    no dataset hidden, and reports the numbers of samples and of data
    points. The error "No valid data found in CSV file" is never raised. *)
Theorem upload_success_resets_dashboard (tz : Date.TimeZone) (csvText : string)
    (ds : Dataset) (w : list warning) (st : Dashboard) :
  parseCSV tz csvText = Normal (ds, w) ->
  exists c,
    handleFileUpload tz (Normal csvText) st
    = {| parsedData := Some ds; chart := Some c;
         visibleSamples := list_to_set (samples ds);
         message := Some ("Successfully loaded " +:+ showNat (length (samples ds))
                          +:+ " samples with " +:+ showNat (length (ds_timePoints ds))
                          +:+ " data points", "success") |}
    /\ map Chart.label (Chart.datasets c) = samples ds
    /\ Forall (fun s => Chart.hidden s = false /\ seriesPlotted ds s) (Chart.datasets c).
Proof.
  intros Hparse.
  destruct (handleFileUpload_parsed tz csvText ds w st Hparse) as (c & H & _ & Hl & Hall).
  exists c. auto.
Qed.

Lemma upload_success_resets_dashboard_witness :
  exists ds w c,
    parseCSV (Date.fixedZone 0) fileWithGaps = Normal (ds, w)
    /\ handleFileUpload (Date.fixedZone 0) (Normal fileWithGaps) newDashboard
       = {| parsedData := Some ds; chart := Some c;
            visibleSamples := list_to_set (samples ds);
            message := Some ("Successfully loaded " +:+ showNat (length (samples ds))
                             +:+ " samples with " +:+ showNat (length (ds_timePoints ds))
                             +:+ " data points", "success") |}
    /\ map Chart.label (Chart.datasets c) = samples ds
    /\ Forall (fun s => Chart.hidden s = false /\ seriesPlotted ds s) (Chart.datasets c).
Proof.
  destruct (parseCSV (Date.fixedZone 0) fileWithGaps) as [[ds w] | e] eqn:Hparse;
    [| vm_compute in Hparse; discriminate].
  destruct (upload_success_resets_dashboard (Date.fixedZone 0) fileWithGaps ds w
              newDashboard Hparse) as (c & H).
  exists ds, w, c. split; [reflexivity | exact H].
Defined.

(** X26. A failed upload (the file cannot be read, or [parseCSV] throws)
    leaves the previous data, chart and visible samples in place, and
    shows "Error loading file: " followed by the message of the error. *)
Theorem upload_failure_keeps_previous_data (tz : Date.TimeZone)
    (file : completion string) (e : exception) (st : Dashboard) :
  file = Throw e \/ (exists csvText, file = Normal csvText /\ parseCSV tz csvText = Throw e) ->
  parsedData (handleFileUpload tz file st) = parsedData st
  /\ chart (handleFileUpload tz file st) = chart st
  /\ visibleSamples (handleFileUpload tz file st) = visibleSamples st
  /\ message (handleFileUpload tz file st)
     = Some ("Error loading file: " +:+ errorMessage e, "error").
Proof.
  intros [-> | (csvText & -> & Hparse)]; unfold handleFileUpload.
  - repeat split; reflexivity.
  - rewrite Hparse. repeat split; reflexivity.
Qed.

Lemma upload_failure_keeps_previous_data_witness :
  parsedData (handleFileUpload (Date.fixedZone 0) (Normal "t,a") newDashboard)
    = parsedData newDashboard
  /\ chart (handleFileUpload (Date.fixedZone 0) (Normal "t,a") newDashboard)
     = chart newDashboard
  /\ visibleSamples (handleFileUpload (Date.fixedZone 0) (Normal "t,a") newDashboard)
     = visibleSamples newDashboard
  /\ message (handleFileUpload (Date.fixedZone 0) (Normal "t,a") newDashboard)
     = Some ("Error loading file: "
             +:+ errorMessage (Error "CSV file must have at least 2 rows (header + data)"),
             "error").
Proof.
  apply upload_failure_keeps_previous_data. right. exists "t,a". split; reflexivity.
Defined.

Lemma wellFormed_showMessage (text type : string) (st : Dashboard) :
  wellFormed st -> wellFormed (showMessage text type st).
Proof.
  intros [[Hd Hc] | (ds & c & Hd & Hc & Hl & Hh)]; [left | right].
  - split; assumption.
  - exists ds, c. simpl. auto.
Qed.

(** X27. Every state reached from a new dashboard by uploads and toggles
    is well formed: it has no data and no chart, or a chart in step with
    its data (one dataset per sample column, hidden exactly when its
    label is not visible); and in such a state no toggle throws. *)
Theorem dashboard_stays_well_formed (tz : Date.TimeZone) :
  wellFormed newDashboard
  /\ forall st, wellFormed st ->
       (forall file, wellFormed (handleFileUpload tz file st))
       /\ (forall name, exists st',
             toggleSample name st = (st', None) /\ wellFormed st').
Proof.
  split; [left; split; reflexivity |].
  intros st Hwf. split.
  - intros [csvText | e].
    + destruct (parseCSV tz csvText) as [[ds w] | e] eqn:Hparse.
      * destruct (handleFileUpload_parsed tz csvText ds w st Hparse)
          as (c & _ & -> & _).
        right. by apply (render_inSync tz csvText ds w).
      * unfold handleFileUpload. rewrite Hparse. unfold loadFailed.
        by do 2 apply wellFormed_showMessage.
    + unfold handleFileUpload, loadFailed. by do 2 apply wellFormed_showMessage.
  - intros name. destruct Hwf as [[Hd Hc] | Hsync].
    + unfold toggleSample, updateChart. simpl. rewrite Hc.
      eexists. split; [reflexivity |]. left. simpl. auto.
    + destruct (toggleSample_preserves name st Hsync) as (st' & Hrun & Hsync' & _).
      exists st'. split; [assumption | by right].
Qed.

Lemma dashboard_stays_well_formed_witness :
  wellFormed newDashboard
  /\ wellFormed (handleFileUpload (Date.fixedZone 0) (Normal fileWithGaps) newDashboard)
  /\ exists st', toggleSample "a" newDashboard = (st', None) /\ wellFormed st'.
Proof.
  pose proof (dashboard_stays_well_formed (Date.fixedZone 0)) as [Hnew Hstep].
  destruct (Hstep newDashboard Hnew) as [Hupload Htoggle].
  split; [exact Hnew |]. split; [exact (Hupload (Normal fileWithGaps)) |].
  exact (Htoggle "a").
Defined.

(** X28. For a dataset returned by [parseCSV], the title of the x axis is
    "Time (integer values)" under the integer format and "Time (HH:MM:SS)"
    otherwise; the default title "Time" is for a dashboard without data. *)
Theorem axis_title_of_parsed_dataset (tz : Date.TimeZone) (csvText : string)
    (ds : Dataset) (w : list warning) :
  parseCSV tz csvText = Normal (ds, w) ->
  getXAxisTitle (Some ds)
  = (if String.eqb (timeFormat ds) "integer" then "Time (integer values)"
     else "Time (HH:MM:SS)")
  /\ getXAxisTitle (Some ds) <> "Time"
  /\ getXAxisTitle None = "Time".
Proof.
  intros Hparse. unfold getXAxisTitle.
  destruct (parsed_format_cases tz csvText ds w Hparse) as [-> | ->]; simpl;
    repeat split; discriminate.
Qed.

Lemma axis_title_of_parsed_dataset_witness :
  exists ds w,
    parseCSV (Date.fixedZone 0) fileWithGaps = Normal (ds, w)
    /\ getXAxisTitle (Some ds)
       = (if String.eqb (timeFormat ds) "integer" then "Time (integer values)"
          else "Time (HH:MM:SS)")
    /\ getXAxisTitle (Some ds) <> "Time"
    /\ getXAxisTitle None = "Time".
Proof.
  destruct (parseCSV (Date.fixedZone 0) fileWithGaps) as [[ds w] | e] eqn:Hparse;
    [| vm_compute in Hparse; discriminate].
  exists ds, w. split; [reflexivity |].
  exact (axis_title_of_parsed_dataset (Date.fixedZone 0) fileWithGaps ds w Hparse).
Defined.
